(** * PIX deposit reconciliation: the payment webhook of the betting backend

    A shallow embedding of the PIX controller (the route handlers
    [generatePixQrCode], [pixWebhook], [checkPixStatus],
    [getSpecialLogicHistory] and [getSpecialLogicStats]) together with the
    part of the MongoDB/Mongoose store they talk to, and the properties of
    the reconciliation that the specification states.

    Conventions.
    - Monetary amounts and balances are integers ([Z]); dates are
      milliseconds since the epoch ([Z]); ObjectIds are natural numbers.
    - The [transactions] collection is a list in insertion order, the
      [users] collection a finite map from ids to documents.
    - Every [await]ed store call may reject; which call sites reject in a
      run is given by an oracle [StoreCall -> bool].  A rejected call has
      no effect on the store.
    - Requests served one after the other are a [run_trace]; a handler
      that is suspended at an [await] while others are served is a
      [Task].
    - The history handler takes [page] and [limit] as the query string
      holds them; the coercions of JavaScript, the arithmetic of doubles
      and the paging of the store are those of a [Runtime], and what is
      proved of the handler holds for every runtime. *)

From stdpp Require Import base decidable option list gmap strings pretty
  sorting.
From Stdlib Require Import ZArith Lia Sorted.

Local Open Scope Z_scope.

(** ** JavaScript values *)

(** The part of the JavaScript value space the handlers see: parsed JSON
    bodies, the metadata objects they build, dates and ObjectIds. *)
#[warnings="-register-all"]
Inductive jsval : Type :=
  | JUndefined
  | JNull
  | JBool (b : bool)
  | JNum (n : Z)
  | JStr (s : string)
  | JDate (ms : Z)
  | JOid (n : nat)
  | JArr (items : list jsval)
  | JObj (fields : list (string * jsval)).

(** An object is an association list in key insertion order. *)
Abbreviation jsobject := (list (string * jsval)).

(** [ToBoolean]: the falsy values are undefined, null, false, 0 and the
    empty string. *)
Definition truthy (v : jsval) : bool :=
  match v with
  | JUndefined | JNull => false
  | JBool b => b
  | JNum n => negb (n =? 0)
  | JStr s => negb (String.eqb s "")
  | JDate _ | JOid _ | JArr _ | JObj _ => true
  end.

(** [a || b] *)
Definition js_or (a b : jsval) : jsval := if truthy a then a else b.

Fixpoint obj_get (k : string) (o : jsobject) : jsval :=
  match o with
  | [] => JUndefined
  | (k', v) :: o' => if String.eqb k k' then v else obj_get k o'
  end.

(** [o[k] = v] on an object: overwrite in place or append the key. *)
Fixpoint obj_set (k : string) (v : jsval) (o : jsobject) : jsobject :=
  match o with
  | [] => [(k, v)]
  | (k', v') :: o' =>
      if String.eqb k k' then (k, v) :: o' else (k', v') :: obj_set k v o'
  end.

(** [v.k] for a value that is neither null nor undefined: own fields of an
    object, undefined on primitives and arrays for the keys used here. *)
Definition get_field (v : jsval) (k : string) : jsval :=
  match v with
  | JObj o => obj_get k o
  | _ => JUndefined
  end.

(** [const { k } = v]: destructuring null or undefined throws a TypeError. *)
Definition destructure (v : jsval) (k : string) : option jsval :=
  match v with
  | JUndefined | JNull => None
  | _ => Some (get_field v k)
  end.

(** [v !== 'lit'] is the negation of this test. *)
Definition is_string (v : jsval) (lit : string) : bool :=
  match v with
  | JStr s => String.eqb s lit
  | _ => false
  end.

(** A JavaScript number, where the handlers compute with numbers that
    need not be integers: a double is not a number, an infinity, or
    [m * 2^e]. *)
Inductive jsnumber :=
  | NaN
  | Infinity (negative : bool)
  | Finite (m e : Z).

(** The number an integer literal or an integer field denotes. *)
Definition number_of_Z (z : Z) : jsnumber := Finite z 0.

(** ** Documents *)

(** Modelled from the spec: the enumerations declared by the Transaction
    schema (models/transaction.model.js), which the controller only uses
    through the literals 'DEPOSIT', 'PENDING', 'COMPLETED', 'CANCELLED'
    and 'PIX'. *)
Inductive TxType := DEPOSIT | WITHDRAWAL | BET.
Inductive Status := PENDING | COMPLETED | CANCELLED.
Inductive PaymentMethod := PIX | CREDIT_CARD.

#[global] Instance TxType_eq_dec : EqDecision TxType.
Proof. solve_decision. Defined.
#[global] Instance Status_eq_dec : EqDecision Status.
Proof. solve_decision. Defined.
#[global] Instance PaymentMethod_eq_dec : EqDecision PaymentMethod.
Proof. solve_decision. Defined.

Record UserDoc := mkUser {
  username : string;
  email : string;
  balance : Z
}.

Record TransactionDoc := mkTransaction {
  _id : nat;
  userId : nat;
  type : TxType;
  amount : Z;
  status : Status;
  paymentMethod : PaymentMethod;
  externalReference : string;
  metadata : jsobject;
  createdAt : Z;
  updatedAt : Z
}.

Record PixCredentialDoc := mkCredential {
  clientId : string;
  clientSecret : string;
  isActive : bool
}.

(** The database: the three collections and the ObjectId generator. *)
Record Db := mkDb {
  transactions : list TransactionDoc;
  users : gmap nat UserDoc;
  pixCredentials : list PixCredentialDoc;
  nextId : nat
}.

(** ** Queries *)

(** A filter document over transactions; an absent key constrains nothing.
    [q_id_ne] is [_id: { $ne: ... }], [q_special] is
    ['metadata.specialLogicApplied': true] and [q_createdAt_gte] is
    [createdAt: { $gte: ... }]. *)
Record Filter := mkFilter {
  q_userId : option nat;
  q_type : option TxType;
  q_status : option Status;
  q_paymentMethod : option PaymentMethod;
  q_id_ne : option nat;
  q_externalReference : option string;
  q_special : bool;
  q_createdAt_gte : option Z
}.

Definition holds {A} (o : option A) (test : A -> bool) : bool :=
  match o with
  | None => true
  | Some x => test x
  end.

Definition is_true_val (v : jsval) : bool :=
  match v with
  | JBool true => true
  | _ => false
  end.

Definition matches (q : Filter) (t : TransactionDoc) : bool :=
  holds (q_userId q) (fun u => bool_decide (userId t = u))
  && holds (q_type q) (fun x => bool_decide (type t = x))
  && holds (q_status q) (fun x => bool_decide (status t = x))
  && holds (q_paymentMethod q) (fun x => bool_decide (paymentMethod t = x))
  && holds (q_id_ne q) (fun i => negb (bool_decide (_id t = i)))
  && holds (q_externalReference q) (fun r => String.eqb (externalReference t) r)
  && (negb (q_special q)
      || is_true_val (obj_get "specialLogicApplied" (metadata t)))
  && holds (q_createdAt_gte q) (fun d => d <=? createdAt t).

(** ** Sorting *)

(** A sort document is a list of keys with a direction each; only the
    direction [-1] (descending) occurs in the controller, [1] is carried
    for completeness. *)
Inductive Direction := Ascending | Descending.

Abbreviation SortSpec := (list ((TransactionDoc -> Z) * Direction)).

Definition directed (d : Direction) (c : comparison) : comparison :=
  match d with
  | Ascending => c
  | Descending => CompOpp c
  end.

(** [order_of spec a b = Lt] when [a] sorts strictly before [b]. *)
Fixpoint order_of (spec : SortSpec) (a b : TransactionDoc) : comparison :=
  match spec with
  | [] => Eq
  | (key, d) :: spec' =>
      match directed d (key a ?= key b) with
      | Eq => order_of spec' a b
      | c => c
      end
  end.

(** Stable insertion: a document goes in front of the first one that does
    not sort strictly before it, so ties stay in collection order. *)
Fixpoint insert_sorted (spec : SortSpec) (x : TransactionDoc)
    (l : list TransactionDoc) : list TransactionDoc :=
  match l with
  | [] => [x]
  | y :: l' =>
      match order_of spec y x with
      | Lt => y :: insert_sorted spec x l'
      | _ => x :: y :: l'
      end
  end.

Definition sort_docs (spec : SortSpec) (l : list TransactionDoc)
    : list TransactionDoc :=
  foldr (insert_sorted spec) [] l.

(** ** The JavaScript runtime and the paging of the store *)

(** What the history handler leaves to its surroundings, taken as they
    are: the coercions [Number(v)] (applied by [-], [*] and [/]) and
    [parseInt(v)] of a query value, the arithmetic of doubles, and the
    documents the store returns for [.skip(s).limit(n)] on a sorted
    result ([None] when it rejects the query). *)
Record Runtime := mkRuntime {
  ToNumber : jsval -> jsnumber;
  parseInt : jsval -> jsnumber;
  num_add : jsnumber -> jsnumber -> jsnumber;
  num_sub : jsnumber -> jsnumber -> jsnumber;
  num_mul : jsnumber -> jsnumber -> jsnumber;
  num_div : jsnumber -> jsnumber -> jsnumber;
  num_ceil : jsnumber -> jsnumber;
  paged : jsnumber -> jsnumber -> list TransactionDoc ->
          option (list TransactionDoc)
}.

(** ** Handlers as store programs *)

(** What a handler sends back.  [Failure code message] is
    [res.status(code).json({ success: false, message })] (the [error]
    detail that the QR code handler adds to its 500 answer is left out);
    the other constructors carry the [data] of the successful answers. *)
Record WebhookData := mkWebhookData {
  wd_userId : nat;
  wd_originalAmount : Z;
  wd_actualPaymentAmount : jsval;
  wd_specialLogicApplied : bool;
  wd_cancelledTransactions : nat;
  wd_totalCredited : Z
}.

Record QrData := mkQrData {
  qd_transaction_id : nat;
  qd_external_id : string;
  qd_qr_code : string;
  qd_amount : Z
}.

Record Pagination := mkPagination {
  pg_page : jsnumber;
  pg_limit : jsnumber;
  pg_total : nat;
  pg_pages : jsnumber
}.

Inductive Response :=
  | Failure (code : Z) (message : string)
  | QrCreated (d : QrData)
  | WebhookProcessed (d : WebhookData)
  | StatusFound (t : TransactionDoc)
  | HistoryPage (rows : list (TransactionDoc * UserDoc))
      (pagination : Pagination) (totalAmountCredited : jsnumber)
  | StatsReport (total today thisWeek thisMonth : nat)
      (totalAmountCredited : Z) (pendingTransactions : list TransactionDoc).

Definition http_status (r : Response) : Z :=
  match r with
  | Failure code _ => code
  | QrCreated _ => 201
  | _ => 200
  end.

(** The four answers of the webhook that are not a success, named as in
    the specification's error taxonomy, and the answer of its [catch]. *)
Definition InvalidWebhook : Response :=
  Failure 400 "Dados de webhook inválidos".
Definition NoPendingDeposit : Response :=
  Failure 404 "Nenhuma transação PIX pendente encontrada".
Definition NoPendingDepositForUser : Response :=
  Failure 404 "Nenhuma transação PIX pendente encontrada para este usuário".
Definition UserNotFound : Response :=
  Failure 404 "Usuário não encontrado".
Definition PersistenceFailure : Response :=
  Failure 500 "Erro ao processar notificação de pagamento".

(** A handler body runs against the database and either goes on with a
    value, answers early ([return res.status(..).json(..)]) or throws. *)
Inductive Outcome (A : Type) :=
  | Value (a : A)
  | Respond (r : Response)
  | Throw.
Arguments Value {A} a.
Arguments Respond {A} r.
Arguments Throw {A}.

Definition Handler (A : Type) : Type := Db -> Outcome A * Db.

#[global] Instance Handler_ret : MRet Handler :=
  fun A a db => (Value a, db).

#[global] Instance Handler_bind : MBind Handler :=
  fun A B k m db =>
    match m db with
    | (Value a, db') => k a db'
    | (Respond r, db') => (Respond r, db')
    | (Throw, db') => (Throw, db')
    end.

Definition respond {A} (r : Response) : Handler A := fun db => (Respond r, db).

(** A synchronous step that may throw. *)
Definition js {A} (o : option A) : Handler A :=
  fun db => match o with Some a => (Value a, db) | None => (Throw, db) end.

(** [await call]: the call rejects, leaving the store as it was, or runs. *)
Definition await {A} (rejects : bool) (call : Db -> A * Db) : Handler A :=
  fun db => if rejects then (Throw, db)
            else let '(a, db') := call db in (Value a, db').

(** [await call] for a read that the store may refuse on its own grounds. *)
Definition await_checked {A} (rejects : bool) (call : Db -> option A)
    : Handler A :=
  fun db => if rejects then (Throw, db) else js (call db) db.

Definition query {A} (q : Db -> A) : Db -> A * Db := fun db => (q db, db).
Definition command (c : Db -> Db) : Db -> unit * Db := fun db => (tt, c db).

(** [try { body } catch (error) { res.status(500).json(on_error) }] *)
Definition try_catch (body : Handler Response) (on_error : Response)
    (db : Db) : Response * Db :=
  match body db with
  | (Value r, db') => (r, db')
  | (Respond r, db') => (r, db')
  | (Throw, db') => (on_error, db')
  end.

(** ** Handlers in flight *)

(** Node runs one handler at a time, but only from one [await] to the
    next: at an [await] the handler is suspended until the store has
    performed the call, and other handlers run in between.  A [Task] is
    a handler between two such turns: it has answered, it has thrown
    into its [catch], or it waits for a store call whose result it goes
    on with. *)
Inductive Task :=
  | Answered (r : Response)
  | Thrown
  | Awaiting {A : Type} (rejects : bool) (call : Db -> A * Db)
      (resume : A -> Task).

(** One turn of a suspended handler: the store performs the awaited call
    on what it holds now, and the handler runs on to its next [await]. *)
Definition turn (s : Task * Db) : Task * Db :=
  match s.1 with
  | Awaiting rejects call resume =>
      if rejects then (Thrown, s.2)
      else let '(a, db') := call s.2 in (resume a, db')
  | _ => s
  end.

Definition suspended (t : Task) : bool :=
  match t with
  | Awaiting _ _ _ => true
  | _ => false
  end.

Fixpoint turns (n : nat) (s : Task * Db) : Task * Db :=
  match n with
  | O => s
  | S n => turns n (turn s)
  end.

(** A handler that is given all its turns with nothing in between, inside
    [try { .. } catch (error) { res.status(500).json(on_error) }]. *)
Fixpoint run_task (on_error : Response) (t : Task) (db : Db)
    : Response * Db :=
  match t with
  | Answered r => (r, db)
  | Thrown => (on_error, db)
  | Awaiting rejects call resume =>
      if rejects then (on_error, db)
      else let '(a, db') := call db in run_task on_error (resume a) db'
  end.

(** ** The collections *)

Module User.

Definition findById (id : nat) (db : Db) : option UserDoc := users db !! id.

Definition credit (a : Z) (u : UserDoc) : UserDoc :=
  {| username := username u; email := email u; balance := balance u + a |}.

End User.

(** Modelled from the spec: the middleware of the Transaction model
    (models/transaction.model.js, the balance ledger) that reacts to a
    saved document.  The balance of the owning user is increased by the
    amount of a deposit when its status goes to COMPLETED; no other
    status change of a deposit moves a balance. *)
Definition ledger_on_save (loaded doc : TransactionDoc)
    (us : gmap nat UserDoc) : gmap nat UserDoc :=
  if bool_decide (status doc = COMPLETED)
     && negb (bool_decide (status loaded = COMPLETED))
     && bool_decide (type doc = DEPOSIT)
  then alter (User.credit (amount doc)) (userId doc) us
  else us.

(** An update document: [status: s] and [$set: { 'metadata.k': v, ... }]. *)
Record Patch := mkPatch {
  p_status : option Status;
  p_metadata : list (string * jsval)
}.

Module Transaction.

Definition stamp (now : Z) (t : TransactionDoc) : TransactionDoc :=
  {| _id := _id t; userId := userId t; type := type t; amount := amount t;
     status := status t; paymentMethod := paymentMethod t;
     externalReference := externalReference t; metadata := metadata t;
     createdAt := createdAt t; updatedAt := now |}.

Definition apply_patch (p : Patch) (t : TransactionDoc) : TransactionDoc :=
  {| _id := _id t; userId := userId t; type := type t; amount := amount t;
     status := default (status t) (p_status p);
     paymentMethod := paymentMethod t;
     externalReference := externalReference t;
     metadata := foldl (fun o kv => obj_set kv.1 kv.2 o) (metadata t)
                   (p_metadata p);
     createdAt := createdAt t; updatedAt := updatedAt t |}.

(** [Transaction.find(q).sort(spec)] *)
Definition find (q : Filter) (spec : SortSpec) (db : Db)
    : list TransactionDoc :=
  sort_docs spec (List.filter (matches q) (transactions db)).

(** [Transaction.findOne(q).sort(spec)] *)
Definition findOne (q : Filter) (spec : SortSpec) (db : Db)
    : option TransactionDoc :=
  head (find q spec db).

Definition countDocuments (q : Filter) (db : Db) : nat :=
  length (List.filter (matches q) (transactions db)).

(** The stored document with a given [_id]. *)
Definition findById (i : nat) (db : Db) : option TransactionDoc :=
  head (List.filter (fun t => bool_decide (_id t = i)) (transactions db)).

(** [Transaction.create(fields)]: a fresh [_id], both timestamps set. *)
Definition create (user : nat) (ty : TxType) (a : Z) (s : Status)
    (pm : PaymentMethod) (ref : string) (now : Z) (db : Db)
    : TransactionDoc * Db :=
  let doc := {| _id := nextId db; userId := user; type := ty; amount := a;
                status := s; paymentMethod := pm;
                externalReference := ref; metadata := [];
                createdAt := now; updatedAt := now |} in
  (doc, {| transactions := transactions db ++ [doc]; users := users db;
           pixCredentials := pixCredentials db;
           nextId := S (nextId db) |}).

(** [doc.save()] of a document obtained as [loaded] from a query and
    modified since: the stored document with that [_id] is replaced and
    the ledger middleware runs. *)
Definition save (loaded doc : TransactionDoc) (now : Z) (db : Db) : Db :=
  {| transactions :=
       map (fun t => if bool_decide (_id t = _id doc)
                     then stamp now doc else t) (transactions db);
     users := ledger_on_save loaded doc (users db);
     pixCredentials := pixCredentials db;
     nextId := nextId db |}.

(** [Transaction.updateMany(q, patch)].  The patch of the controller
    sets CANCELLED, to which the ledger does not react. *)
Definition updateMany (q : Filter) (p : Patch) (now : Z) (db : Db) : Db :=
  {| transactions :=
       map (fun t => if matches q t then stamp now (apply_patch p t) else t)
           (transactions db);
     users := users db;
     pixCredentials := pixCredentials db;
     nextId := nextId db |}.

End Transaction.

(** ** The controller *)

(** The awaited calls of the five handlers, in source order. *)
Inductive StoreCall :=
  | CredentialFindOne | TransactionCreate
  | FindAnyPending | FindLargestPending | UserFindById
  | SaveCompleted | FindOtherPending | CancelOthers
  | StatusFindOne
  | HistoryFind | HistoryCount
  | StatsTotal | StatsToday | StatsWeek | StatsMonth | StatsAggregate
  | StatsPending.

Definition no_faults : StoreCall -> bool := fun _ => false.

(** [{ type: 'DEPOSIT', status: 'PENDING', paymentMethod: 'PIX' }] *)
Definition pending_pix_deposit : Filter :=
  {| q_userId := None; q_type := Some DEPOSIT; q_status := Some PENDING;
     q_paymentMethod := Some PIX; q_id_ne := None;
     q_externalReference := None; q_special := false;
     q_createdAt_gte := None |}.

(** The same with [userId: u]. *)
Definition pending_pix_deposit_of (u : nat) : Filter :=
  {| q_userId := Some u; q_type := Some DEPOSIT; q_status := Some PENDING;
     q_paymentMethod := Some PIX; q_id_ne := None;
     q_externalReference := None; q_special := false;
     q_createdAt_gte := None |}.

(** The same with [userId: u] and [_id: { $ne: i }]. *)
Definition other_pending_pix_deposit_of (u i : nat) : Filter :=
  {| q_userId := Some u; q_type := Some DEPOSIT; q_status := Some PENDING;
     q_paymentMethod := Some PIX; q_id_ne := Some i;
     q_externalReference := None; q_special := false;
     q_createdAt_gte := None |}.

(** [{ type: 'DEPOSIT', paymentMethod: 'PIX',
       'metadata.specialLogicApplied': true, createdAt: { $gte: since } }] *)
Definition special_logic_since (since : option Z) : Filter :=
  {| q_userId := None; q_type := Some DEPOSIT; q_status := None;
     q_paymentMethod := Some PIX; q_id_ne := None;
     q_externalReference := None; q_special := true;
     q_createdAt_gte := since |}.

Definition by_externalReference (ref : string) : Filter :=
  {| q_userId := None; q_type := None; q_status := None;
     q_paymentMethod := None; q_id_ne := None;
     q_externalReference := Some ref; q_special := false;
     q_createdAt_gte := None |}.

(** [!requestBody || requestBody.status !== 'PAID'] *)
Definition invalid_payload (requestBody : jsval) : bool :=
  negb (truthy requestBody)
  || negb (is_string (get_field requestBody "status") "PAID").

(** The metadata written on the credited transaction. *)
Definition completed_metadata (requestBody : jsval) (credited : Z)
    (user : nat) (now : Z) : jsobject :=
  [ ("pixTransactionId",
       js_or (get_field requestBody "transactionId") (JStr "unknown"));
    ("dateApproval", js_or (get_field requestBody "dateApproval") (JDate now));
    ("payerInfo", js_or (get_field requestBody "creditParty") (JObj []));
    ("webhookData", requestBody);
    ("paymentMethod", JStr "PIX");
    ("specialLogicApplied", JBool true);
    ("originalAmount", JNum credited);
    ("actualPaymentAmount",
       js_or (get_field requestBody "amount") (JStr "unknown"));
    ("processedAt", JDate now);
    ("userIdProcessed", JOid user) ].

(** [latestTransaction.status = 'COMPLETED'; latestTransaction.metadata = ..] *)
Definition mark_completed (requestBody : jsval) (user : nat) (now : Z)
    (t : TransactionDoc) : TransactionDoc :=
  {| _id := _id t; userId := userId t; type := type t; amount := amount t;
     status := COMPLETED; paymentMethod := paymentMethod t;
     externalReference := externalReference t;
     metadata := completed_metadata requestBody (amount t) user now;
     createdAt := createdAt t; updatedAt := updatedAt t |}.

(** The update document of the cancellation. *)
Definition cancel_patch (now : Z) : Patch :=
  {| p_status := Some CANCELLED;
     p_metadata :=
       [ ("cancelledBy", JStr "SPECIAL_LOGIC");
         ("cancelledAt", JDate now);
         ("reason",
          JStr "Cancelado pela lógica especial - Valor maior já foi creditado")
       ] |}.

Section Controller.

(** Which awaited calls reject in this run, and the clock: every
    [new Date()] and [Date.now()] of one run reads the instant [now]. *)
Variable fails : StoreCall -> bool.
Variable now : Z.

(** The PIX service ([services/pix.service.js]), an external
    collaborator: the QR code for an amount, a description, an external
    id and a credential, or [None] when the provider call throws. *)
Variable generatePixQRCode :
  Z -> string -> string -> PixCredentialDoc -> option string.

(** The runtime the history handler computes with. *)
Variable rt : Runtime.

(** POST /api/pix/webhook, the body of the [try] block.  [req_body] is
    [req.body]. *)
Definition pixWebhook_body (req_body : jsval) : Handler Response :=
  requestBody ← js (destructure req_body "requestBody");
  if invalid_payload requestBody
  then respond InvalidWebhook
  else
    anyPendingTransaction ←
      await (fails FindAnyPending)
        (query (Transaction.findOne pending_pix_deposit
                  [(createdAt, Descending)]));
    match anyPendingTransaction with
    | None => respond NoPendingDeposit
    | Some anyPendingTransaction =>
        let uid := userId anyPendingTransaction in
        latestTransaction ←
          await (fails FindLargestPending)
            (query (Transaction.findOne (pending_pix_deposit_of uid)
                      [(amount, Descending); (createdAt, Descending)]));
        match latestTransaction with
        | None => respond NoPendingDepositForUser
        | Some loaded =>
            user ← await (fails UserFindById)
                     (query (User.findById (userId loaded)));
            match user with
            | None => respond UserNotFound
            | Some user =>
                let latestTransaction :=
                  mark_completed requestBody uid now loaded in
                _ ← await (fails SaveCompleted)
                      (command
                         (Transaction.save loaded latestTransaction now));
                otherPendingTransactions ←
                  await (fails FindOtherPending)
                    (query (Transaction.find
                              (other_pending_pix_deposit_of uid
                                 (_id latestTransaction)) []));
                _ ← (if bool_decide
                          (0 < length otherPendingTransactions)%nat
                     then await (fails CancelOthers)
                            (command
                               (Transaction.updateMany
                                  (other_pending_pix_deposit_of uid
                                     (_id latestTransaction))
                                  (cancel_patch now) now))
                     else mret tt);
                mret (WebhookProcessed
                        {| wd_userId := uid;
                           wd_originalAmount := amount latestTransaction;
                           wd_actualPaymentAmount :=
                             js_or (get_field requestBody "amount")
                                   (JStr "unknown");
                           wd_specialLogicApplied := true;
                           wd_cancelledTransactions :=
                             length otherPendingTransactions;
                           wd_totalCredited := amount latestTransaction |})
            end
        end
    end.

Definition pixWebhook (req_body : jsval) (db : Db) : Response * Db :=
  try_catch (pixWebhook_body req_body) PersistenceFailure db.

(** The same body, [await] by [await]: what the handler does between its
    arrival and its first [await], and from each [await] to the next.
    The document [loaded] that line 158 returned stays in the hands of
    the handler across the [await]s of lines 174 and 200. *)
Definition pixWebhook_task (req_body : jsval) : Task :=
  match destructure req_body "requestBody" with
  | None => Thrown
  | Some requestBody =>
      if invalid_payload requestBody
      then Answered InvalidWebhook
      else
        Awaiting (fails FindAnyPending)
          (query (Transaction.findOne pending_pix_deposit
                    [(createdAt, Descending)]))
          (fun anyPendingTransaction =>
        match anyPendingTransaction with
        | None => Answered NoPendingDeposit
        | Some anyPendingTransaction =>
        let uid := userId anyPendingTransaction in
        Awaiting (fails FindLargestPending)
          (query (Transaction.findOne (pending_pix_deposit_of uid)
                    [(amount, Descending); (createdAt, Descending)]))
          (fun latestTransaction =>
        match latestTransaction with
        | None => Answered NoPendingDepositForUser
        | Some loaded =>
        Awaiting (fails UserFindById)
          (query (User.findById (userId loaded)))
          (fun user =>
        match user with
        | None => Answered UserNotFound
        | Some user =>
        let latestTransaction :=
          mark_completed requestBody uid now loaded in
        Awaiting (fails SaveCompleted)
          (command (Transaction.save loaded latestTransaction now))
          (fun _ =>
        Awaiting (fails FindOtherPending)
          (query (Transaction.find
                    (other_pending_pix_deposit_of uid
                       (_id latestTransaction)) []))
          (fun otherPendingTransactions =>
        let answer :=
          Answered
            (WebhookProcessed
               {| wd_userId := uid;
                  wd_originalAmount := amount latestTransaction;
                  wd_actualPaymentAmount :=
                    js_or (get_field requestBody "amount")
                          (JStr "unknown");
                  wd_specialLogicApplied := true;
                  wd_cancelledTransactions :=
                    length otherPendingTransactions;
                  wd_totalCredited := amount latestTransaction |}) in
        if bool_decide (0 < length otherPendingTransactions)%nat
        then Awaiting (fails CancelOthers)
               (command
                  (Transaction.updateMany
                     (other_pending_pix_deposit_of uid
                        (_id latestTransaction))
                     (cancel_patch now) now))
               (fun _ => answer)
        else answer))
        end)
        end)
        end)
  end.

(** POST /api/pix/generate.  [amount] is [req.body.amount], a number,
    and [user] is [req.user.id]. *)
Definition generatePixQrCode_body (amount : Z) (user : nat)
    : Handler Response :=
  if (amount =? 0) || (amount <=? 0) then
    respond (Failure 400 "Valor inválido")
  else if amount <? 35 then
    respond (Failure 400 "O valor mínimo para depósito é R$ 35,00")
  else
    activeCredential ←
      await (fails CredentialFindOne)
        (query (fun db => head (List.filter isActive (pixCredentials db))));
    match activeCredential with
    | None => respond (Failure 500 "Credenciais PIX não configuradas")
    | Some activeCredential =>
        let externalId := "PIX_" +:+ pretty now +:+ "_" +:+ pretty user in
        transaction ←
          await (fails TransactionCreate)
            (Transaction.create user DEPOSIT amount PENDING PIX
               externalId now);
        qrCode ← js (generatePixQRCode amount "Depósito via PIX"
                       externalId activeCredential);
        mret (QrCreated
                {| qd_transaction_id := _id transaction;
                   qd_external_id := externalId;
                   qd_qr_code := qrCode;
                   qd_amount := amount |})
    end.

Definition generatePixQrCode (amount : Z) (user : nat) (db : Db)
    : Response * Db :=
  try_catch (generatePixQrCode_body amount user)
    (Failure 500 "Erro ao gerar QR Code PIX") db.

(** GET /api/pix/status/:external_id *)
Definition checkPixStatus_body (external_id : string) : Handler Response :=
  transaction ←
    await (fails StatusFindOne)
      (query (Transaction.findOne (by_externalReference external_id) []));
  match transaction with
  | None => respond (Failure 404 "Transação não encontrada")
  | Some transaction => mret (StatusFound transaction)
  end.

Definition checkPixStatus (external_id : string) (db : Db)
    : Response * Db :=
  try_catch (checkPixStatus_body external_id)
    (Failure 500 "Erro ao verificar status do pagamento") db.

(** [.populate('userId', 'username email')]: the owner of each document
    is looked up; one that no longer exists is populated as null. *)
Definition populate (db : Db) (l : list TransactionDoc)
    : list (TransactionDoc * option UserDoc) :=
  map (fun t => (t, User.findById (userId t) db)) l.

(** [const { k = d } = req.query]: the default replaces an absent key. *)
Definition with_default (d v : jsval) : jsval :=
  match v with
  | JUndefined => d
  | _ => v
  end.

(** The documents of the requested page:
    [.sort({ createdAt: -1 }).skip((page - 1) * limit)
     .limit(parseInt(limit))], with [page] and [limit] as the query
    string gives them. *)
Definition history_docs (page limit : jsval) (db : Db)
    : option (list TransactionDoc) :=
  let page := with_default (JNum 1) page in
  let limit := with_default (JNum 20) limit in
  let skip := num_mul rt (num_sub rt (ToNumber rt page) (number_of_Z 1))
                (ToNumber rt limit) in
  paged rt skip (parseInt rt limit)
    (Transaction.find (special_logic_since None)
       [(createdAt, Descending)] db).

(** GET /api/pix/special-logic-history, with [page] and [limit] as
    [req.query] holds them.  Formatting a row reads
    [transaction.userId._id], which throws on a null owner. *)
Definition getSpecialLogicHistory_body (page limit : jsval)
    : Handler Response :=
  found ←
    await_checked (fails HistoryFind)
      (fun db => populate db <$> history_docs page limit db);
  total ← await (fails HistoryCount)
            (query (Transaction.countDocuments (special_logic_since None)));
  formattedTransactions ←
    js (mapM (fun row => owner ← row.2; Some (row.1, owner)) found);
  let page := with_default (JNum 1) page in
  let limit := with_default (JNum 20) limit in
  mret (HistoryPage formattedTransactions
          {| pg_page := parseInt rt page;
             pg_limit := parseInt rt limit;
             pg_total := total;
             pg_pages :=
               num_ceil rt (num_div rt (number_of_Z (Z.of_nat total))
                              (ToNumber rt limit)) |}
          (foldl (fun sum row => num_add rt sum (number_of_Z (amount row.1)))
             (number_of_Z 0) found)).

Definition getSpecialLogicHistory (page limit : jsval) (db : Db)
    : Response * Db :=
  try_catch (getSpecialLogicHistory_body page limit)
    (Failure 500 "Erro ao buscar histórico de lógica especial") db.

(** GET /api/pix/special-logic-stats.  [today], [thisWeek] and
    [thisMonth] are the three dates the handler derives from the clock. *)
Definition getSpecialLogicStats_body (today thisWeek thisMonth : Z)
    : Handler Response :=
  totalSpecialLogic ←
    await (fails StatsTotal)
      (query (Transaction.countDocuments (special_logic_since None)));
  todayCount ←
    await (fails StatsToday)
      (query (Transaction.countDocuments
                (special_logic_since (Some today))));
  weekCount ←
    await (fails StatsWeek)
      (query (Transaction.countDocuments
                (special_logic_since (Some thisWeek))));
  monthCount ←
    await (fails StatsMonth)
      (query (Transaction.countDocuments
                (special_logic_since (Some thisMonth))));
  totalAmountCredited ←
    await (fails StatsAggregate)
      (query (fun db =>
                foldl (fun sum t => sum + amount t) 0
                  (Transaction.find (special_logic_since None) [] db)));
  pendingTransactions ←
    await (fails StatsPending)
      (query (Transaction.find pending_pix_deposit
                [(amount, Descending); (createdAt, Descending)]));
  mret (StatsReport totalSpecialLogic todayCount weekCount monthCount
          totalAmountCredited pendingTransactions).

Definition getSpecialLogicStats (today thisWeek thisMonth : Z) (db : Db)
    : Response * Db :=
  try_catch (getSpecialLogicStats_body today thisWeek thisMonth)
    (Failure 500 "Erro ao buscar estatísticas de lógica especial") db.

End Controller.

(** ** The system as a whole *)

(** The surroundings of one request: which store calls are rejected, the
    clock, the PIX service and the runtime. *)
Record Env := mkEnv {
  env_fails : StoreCall -> bool;
  env_now : Z;
  env_qr : Z -> string -> string -> PixCredentialDoc -> option string;
  env_rt : Runtime
}.

(** The five operations the controller exposes. *)
Inductive Request :=
  | IssueDeposit (amount : Z) (user : nat)
  | PaymentConfirmation (req_body : jsval)
  | GetStatus (external_id : string)
  | ListHistory (page limit : jsval)
  | GetStats (today thisWeek thisMonth : Z).

Definition handle (e : Env) (r : Request) (db : Db) : Response * Db :=
  match r with
  | IssueDeposit a u =>
      generatePixQrCode (env_fails e) (env_now e) (env_qr e) a u db
  | PaymentConfirmation req_body =>
      pixWebhook (env_fails e) (env_now e) req_body db
  | GetStatus external_id => checkPixStatus (env_fails e) external_id db
  | ListHistory page limit =>
      getSpecialLogicHistory (env_fails e) (env_rt e) page limit db
  | GetStats today thisWeek thisMonth =>
      getSpecialLogicStats (env_fails e) today thisWeek thisMonth db
  end.

(** The store after a sequence of requests, served one after the other. *)
Fixpoint run_trace (trace : list (Env * Request)) (db : Db) : Db :=
  match trace with
  | [] => db
  | (e, r) :: rest => run_trace rest (handle e r db).2
  end.

(** * Vocabulary of the properties *)

(** [a] does not sort after [b] under a sort document. *)
Definition not_after (spec : SortSpec) (a b : TransactionDoc) : Prop :=
  order_of spec a b <> Gt.

(** A success payload: its [status] field is the string 'PAID'. *)
Definition paid (requestBody : jsval) : Prop :=
  get_field requestBody "status" = JStr "PAID".

(** A PENDING PIX deposit. *)
Definition pending_pix (t : TransactionDoc) : Prop :=
  type t = DEPOSIT /\ status t = PENDING /\ paymentMethod t = PIX.

(** [_id] is the primary key, and the generator is ahead of every id. *)
Definition wf_db (db : Db) : Prop :=
  NoDup (map _id (transactions db)) /\
  forall t, t ∈ transactions db -> (_id t < nextId db)%nat.

(** The PENDING PIX deposits of a user, the status of the transaction
    with a given id, and the user the webhook picks. *)
Definition pending_of (u : nat) (db : Db) : list TransactionDoc :=
  List.filter (matches (pending_pix_deposit_of u)) (transactions db).

Definition status_of (i : nat) (db : Db) : option Status :=
  status <$> Transaction.findById i db.

Definition identified_user (db : Db) : option nat :=
  userId <$> Transaction.findOne pending_pix_deposit
               [(createdAt, Descending)] db.

(** ** The paths of the webhook *)

Section Runs.

Variables (fails : StoreCall -> bool) (now : Z) (req_body : jsval) (db : Db).

Abbreviation largest_first :=
  [(amount, Descending); (createdAt, Descending)].

(** The store after the candidate [c] was saved as COMPLETED. *)
Definition after_save (rb : jsval) (any c : TransactionDoc) : Db :=
  Transaction.save c (mark_completed rb (userId any) now c) now db.

(** The siblings the handler enumerates after the save. *)
Definition siblings (rb : jsval) (any c : TransactionDoc)
    : list TransactionDoc :=
  Transaction.find (other_pending_pix_deposit_of (userId any) (_id c)) []
    (after_save rb any c).

(** The store at the end of a run that went through. *)
Definition after_cancel (rb : jsval) (any c : TransactionDoc) : Db :=
  if bool_decide (0 < length (siblings rb any c))%nat
  then Transaction.updateMany
         (other_pending_pix_deposit_of (userId any) (_id c))
         (cancel_patch now) now (after_save rb any c)
  else after_save rb any c.

Definition success_data (rb : jsval) (any c : TransactionDoc)
    : WebhookData :=
  {| wd_userId := userId any;
     wd_originalAmount := amount c;
     wd_actualPaymentAmount :=
       js_or (get_field rb "amount") (JStr "unknown");
     wd_specialLogicApplied := true;
     wd_cancelledTransactions := length (siblings rb any c);
     wd_totalCredited := amount c |}.

(** The paths through [pixWebhook]: the answer and the store each one
    ends with. *)
Inductive webhook_run : Response -> Db -> Prop :=
  | run_type_error :
      destructure req_body "requestBody" = None ->
      webhook_run PersistenceFailure db
  | run_invalid rb :
      destructure req_body "requestBody" = Some rb ->
      invalid_payload rb = true ->
      webhook_run InvalidWebhook db
  | run_rejected_before_save rb :
      destructure req_body "requestBody" = Some rb ->
      invalid_payload rb = false ->
      fails FindAnyPending = true \/ fails FindLargestPending = true \/
      fails UserFindById = true \/ fails SaveCompleted = true ->
      webhook_run PersistenceFailure db
  | run_no_pending rb :
      destructure req_body "requestBody" = Some rb ->
      invalid_payload rb = false ->
      fails FindAnyPending = false ->
      Transaction.findOne pending_pix_deposit [(createdAt, Descending)] db
        = None ->
      webhook_run NoPendingDeposit db
  | run_no_pending_for_user rb any :
      destructure req_body "requestBody" = Some rb ->
      invalid_payload rb = false ->
      Transaction.findOne pending_pix_deposit [(createdAt, Descending)] db
        = Some any ->
      Transaction.findOne (pending_pix_deposit_of (userId any))
        largest_first db = None ->
      webhook_run NoPendingDepositForUser db
  | run_user_not_found rb any c :
      destructure req_body "requestBody" = Some rb ->
      invalid_payload rb = false ->
      Transaction.findOne pending_pix_deposit [(createdAt, Descending)] db
        = Some any ->
      Transaction.findOne (pending_pix_deposit_of (userId any))
        largest_first db = Some c ->
      User.findById (userId c) db = None ->
      webhook_run UserNotFound db
  | run_rejected_after_save rb any c usr :
      destructure req_body "requestBody" = Some rb ->
      invalid_payload rb = false ->
      Transaction.findOne pending_pix_deposit [(createdAt, Descending)] db
        = Some any ->
      Transaction.findOne (pending_pix_deposit_of (userId any))
        largest_first db = Some c ->
      User.findById (userId c) db = Some usr ->
      fails SaveCompleted = false ->
      fails FindOtherPending = true \/
      (siblings rb any c <> [] /\ fails CancelOthers = true) ->
      webhook_run PersistenceFailure (after_save rb any c)
  | run_success rb any c usr :
      destructure req_body "requestBody" = Some rb ->
      invalid_payload rb = false ->
      Transaction.findOne pending_pix_deposit [(createdAt, Descending)] db
        = Some any ->
      Transaction.findOne (pending_pix_deposit_of (userId any))
        largest_first db = Some c ->
      User.findById (userId c) db = Some usr ->
      fails FindAnyPending = false ->
      fails FindLargestPending = false ->
      fails UserFindById = false ->
      fails SaveCompleted = false ->
      fails FindOtherPending = false ->
      webhook_run (WebhookProcessed (success_data rb any c))
        (after_cancel rb any c).

End Runs.

(** What a reconciliation that went through does to one document, given
    the candidate [c]: the candidate is completed, its pending siblings
    are cancelled, every other document is left alone. *)
Definition resolve (rb : jsval) (now : Z) (c t : TransactionDoc)
    : TransactionDoc :=
  if bool_decide (_id t = _id c)
  then Transaction.stamp now (mark_completed rb (userId c) now c)
  else if matches (pending_pix_deposit_of (userId c)) t
       then Transaction.stamp now
              (Transaction.apply_patch (cancel_patch now) t)
       else t.

(** The same for a run that stopped after the save. *)
Definition complete_only (rb : jsval) (now : Z) (c t : TransactionDoc)
    : TransactionDoc :=
  if bool_decide (_id t = _id c)
  then Transaction.stamp now (mark_completed rb (userId c) now c)
  else t.

(** A store [db'] keeps the settled transactions of [db]: it is well
    formed, and every COMPLETED or CANCELLED document of [db] is found
    in it unchanged. *)
Definition keeps_settled (db db' : Db) : Prop :=
  wf_db db' /\
  forall i t, Transaction.findById i db = Some t ->
              status t <> PENDING ->
              Transaction.findById i db' = Some t.

(** ** Scenarios *)

Definition pix_deposit (i u : nat) (a : Z) (s : Status) (created : Z)
    : TransactionDoc :=
  {| _id := i; userId := u; type := DEPOSIT; amount := a; status := s;
     paymentMethod := PIX;
     externalReference := "PIX_" +:+ pretty created +:+ "_" +:+ pretty u;
     metadata := []; createdAt := created; updatedAt := created |}.

(** A confirmation of a payment of 35. *)
Definition paid_35 : jsval :=
  JObj [("requestBody", JObj [("status", JStr "PAID"); ("amount", JNum 35)])].

(** User 7 asked for 500, did not pay, then asked for 35. *)
Definition db_500_35 : Db :=
  {| transactions := [ pix_deposit 0 7 500 PENDING 100;
                       pix_deposit 1 7 35 PENDING 200 ];
     users := {[ 7%nat := mkUser "ana" "ana@example.com" 10 ]};
     pixCredentials := [];
     nextId := 2 |}.

(** User 7 asked for 35 once. *)
Definition db_single : Db :=
  {| transactions := [ pix_deposit 0 7 35 PENDING 100 ];
     users := {[ 7%nat := mkUser "ana" "ana@example.com" 10 ]};
     pixCredentials := [];
     nextId := 1 |}.

(** User 7 asked for 500 twice and then for 35. *)
Definition db_tie : Db :=
  {| transactions := [ pix_deposit 0 7 500 PENDING 100;
                       pix_deposit 1 7 500 PENDING 150;
                       pix_deposit 2 7 35 PENDING 200 ];
     users := {[ 7%nat := mkUser "ana" "ana@example.com" 10 ]};
     pixCredentials := [];
     nextId := 3 |}.

(** Users 7 and 8 both have a pending request. *)
Definition db_two_users : Db :=
  {| transactions := [ pix_deposit 0 7 500 PENDING 100;
                       pix_deposit 1 8 40 PENDING 150;
                       pix_deposit 2 7 35 PENDING 200 ];
     users := {[ 7%nat := mkUser "ana" "ana@example.com" 10;
                 8%nat := mkUser "bia" "bia@example.com" 0 ]};
     pixCredentials := [];
     nextId := 3 |}.

(** A pending request whose owner, user 9, has no record any more. *)
Definition db_orphan : Db :=
  {| transactions := [ pix_deposit 0 9 50 PENDING 100 ];
     users := ∅;
     pixCredentials := [];
     nextId := 1 |}.

(** User 7 asked for 500 and has not paid; new deposits can be issued. *)
Definition db_race : Db :=
  {| transactions := [ pix_deposit 0 7 500 PENDING 100 ];
     users := {[ 7%nat := mkUser "ana" "ana@example.com" 10 ]};
     pixCredentials := [ mkCredential "live" "s1" true ];
     nextId := 1 |}.

(** Two settled deposits of user 7, a pending one of user 8, and a
    credential with which new deposits can be issued. *)
Definition db_settled : Db :=
  {| transactions := [ pix_deposit 0 7 500 COMPLETED 100;
                       pix_deposit 1 7 35 CANCELLED 200;
                       pix_deposit 2 8 40 PENDING 300 ];
     users := {[ 7%nat := mkUser "ana" "ana@example.com" 510;
                 8%nat := mkUser "bia" "bia@example.com" 0 ]};
     pixCredentials := [ mkCredential "live" "s1" true ];
     nextId := 3 |}.

(** The store rejects the enumeration of the siblings and nothing else. *)
Definition enumeration_rejected : StoreCall -> bool :=
  fun call => match call with FindOtherPending => true | _ => false end.

(** The store rejects the cancellation of the siblings and nothing else. *)
Definition cancel_rejected : StoreCall -> bool :=
  fun call => match call with CancelOthers => true | _ => false end.

(** ** Vocabulary of the further properties *)

(** The [external_id] the QR code handler builds for a user at an
    instant: [`PIX_${Date.now()}_${userId}`]. *)
Definition external_id_at (now : Z) (u : nat) : string :=
  "PIX_" +:+ pretty now +:+ "_" +:+ pretty u.

(** The amount a webhook answer reports as credited. *)
Definition credited (r : Response) : option Z :=
  match r with
  | WebhookProcessed d => Some (wd_totalCredited d)
  | _ => None
  end.

(** A PIX deposit on which the reconciliation left its flag
    [metadata.specialLogicApplied === true]. *)
Definition flagged (t : TransactionDoc) : Prop :=
  type t = DEPOSIT /\ paymentMethod t = PIX /\
  obj_get "specialLogicApplied" (metadata t) = JBool true.



(** The list of pending deposits in a statistics answer. *)
Definition reported_pending (r : Response) : list TransactionDoc :=
  match r with
  | StatsReport _ _ _ _ _ pendingTransactions => pendingTransactions
  | _ => []
  end.

(** Larger amount first and, for equal amounts, newer first. *)
Definition larger_or_newer (a b : TransactionDoc) : Prop :=
  amount b < amount a \/ (amount b = amount a /\ createdAt b <= createdAt a).

Definition sum_amounts (l : list TransactionDoc) : Z :=
  foldl (fun sum t => sum + amount t) 0 l.

(** Two versions of a transaction that agree on everything a
    confirmation has no business changing. *)
Definition same_data (t t' : TransactionDoc) : Prop :=
  _id t' = _id t /\ userId t' = userId t /\ type t' = type t /\
  amount t' = amount t /\ paymentMethod t' = paymentMethod t /\
  externalReference t' = externalReference t /\ createdAt t' = createdAt t.

(** A deposit credited by the reconciliation in the past. *)
Definition credited_deposit (i u : nat) (a : Z) (created : Z)
    : TransactionDoc :=
  {| _id := i; userId := u; type := DEPOSIT; amount := a;
     status := COMPLETED; paymentMethod := PIX;
     externalReference := external_id_at created u;
     metadata := [("specialLogicApplied", JBool true);
                  ("originalAmount", JNum a)];
     createdAt := created; updatedAt := created + 1 |}.

(** A history of three credited deposits; the owner of the second one,
    user 9, has no record any more. *)
Definition db_history : Db :=
  {| transactions := [ credited_deposit 0 7 500 100;
                       credited_deposit 1 9 60 200;
                       credited_deposit 2 7 35 300 ];
     users := {[ 7%nat := mkUser "ana" "ana@example.com" 545 ]};
     pixCredentials := [];
     nextId := 3 |}.




(** Stores that are well formed and hold no amount under the minimum. *)
Definition above_minimum (db : Db) : Prop :=
  wf_db db /\ forall t, t ∈ transactions db -> 35 <= amount t.

(** A runtime for the scenarios.  It is JavaScript on the safe integers
    (those of absolute value under 2^53, on which doubles are exact)
    given as numbers, as in a request that leaves [page] and [limit]
    out, and as long as the result is a safe integer too; its store
    serves a page from a skip that is not negative, takes a limit of 0
    as no limit, and rejects the query otherwise.  Off that ground its
    numbers are [NaN], which is not what JavaScript computes: the
    scenarios stay on it. *)
Definition integer_of (n : jsnumber) : option Z :=
  match n with
  | Finite m 0 => if Z.abs m <? 2 ^ 53 then Some m else None
  | _ => None
  end.

Definition safe_integer (z : Z) : jsnumber :=
  if Z.abs z <? 2 ^ 53 then number_of_Z z else NaN.

Definition on_integers (f : Z -> Z -> Z) (a b : jsnumber) : jsnumber :=
  match integer_of a, integer_of b with
  | Some x, Some y => safe_integer (f x y)
  | _, _ => NaN
  end.

Definition scenario_runtime : Runtime :=
  {| ToNumber := fun v => match v with JNum z => safe_integer z | _ => NaN end;
     parseInt := fun v => match v with JNum z => safe_integer z | _ => NaN end;
     num_add := on_integers Z.add;
     num_sub := on_integers Z.sub;
     num_mul := on_integers Z.mul;
     num_div := fun a b =>
       match integer_of a, integer_of b with
       | Some x, Some y =>
           if (y =? 0) || negb (x mod y =? 0) then NaN
           else safe_integer (x / y)
       | _, _ => NaN
       end;
     num_ceil := fun a =>
       match integer_of a with
       | Some x => number_of_Z x
       | None => NaN
       end;
     paged := fun s n l =>
       match integer_of s, integer_of n with
       | Some s, Some n =>
           if (s <? 0) || (n <? 0) then None
           else if n =? 0 then Some (drop (Z.to_nat s) l)
           else Some (take (Z.to_nat n) (drop (Z.to_nat s) l))
       | _, _ => None
       end |}.

(** A PIX service that always answers, and one that always throws. *)
Definition qr_ok
    : Z -> string -> string -> PixCredentialDoc -> option string :=
  fun _ _ _ _ => Some "00020126580014br.gov.bcb.pix".

Definition qr_down
    : Z -> string -> string -> PixCredentialDoc -> option string :=
  fun _ _ _ _ => None.

(** A store with an active credential, user 7 and no transaction. *)
Definition db_ready : Db :=
  {| transactions := [];
     users := {[ 7%nat := mkUser "ana" "ana@example.com" 10 ]};
     pixCredentials := [ mkCredential "old" "s0" false;
                         mkCredential "live" "s1" true ];
     nextId := 0 |}.

(** * Properties *)

(** ** Sorting: the first document of a sorted result *)

Section Sorting.

Variable spec : SortSpec.

Lemma order_of_flip a b : order_of spec b a = CompOpp (order_of spec a b).
Proof.
  induction spec as [|[key d] spec' IH]; simpl; [done|].
  rewrite (Z.compare_antisym (key a) (key b)).
  destruct d, (key a ?= key b); simpl; auto.
Qed.

Lemma order_of_refl a : order_of spec a a = Eq.
Proof.
  induction spec as [|[key d] spec' IH]; simpl; [done|].
  rewrite Z.compare_refl. by destruct d.
Qed.

Lemma not_after_trans a b c :
  not_after spec a b -> not_after spec b c -> not_after spec a c.
Proof.
  unfold not_after.
  induction spec as [|[key d] spec' IH]; simpl; [done|].
  destruct (Z.compare_spec (key a) (key b)),
           (Z.compare_spec (key b) (key c)),
           (Z.compare_spec (key a) (key c));
    destruct d; simpl; try done; try lia; auto.
Qed.

Lemma not_after_total a b : order_of spec a b = Lt \/ not_after spec b a.
Proof.
  unfold not_after. rewrite (order_of_flip a b).
  destruct (order_of spec a b); simpl; auto.
Qed.

Lemma head_insert_sorted x l :
  head (insert_sorted spec x l) =
    match head l with
    | Some y => if decide (order_of spec y x = Lt) then Some y else Some x
    | None => Some x
    end.
Proof.
  destruct l as [|y l']; simpl; [done|].
  case_decide as Hlt; [by rewrite Hlt|].
  by destruct (order_of spec y x).
Qed.

Lemma insert_sorted_elem x l t :
  t ∈ insert_sorted spec x l <-> t = x \/ t ∈ l.
Proof.
  induction l as [|y l' IH]; simpl.
  - by rewrite !elem_of_cons.
  - destruct (order_of spec y x); rewrite !elem_of_cons; [tauto| |tauto].
    rewrite IH. tauto.
Qed.

Lemma sort_docs_elem l t : t ∈ sort_docs spec l <-> t ∈ l.
Proof.
  induction l as [|x l' IH]; simpl; [done|].
  rewrite insert_sorted_elem, elem_of_cons, IH. tauto.
Qed.

Lemma insert_sorted_length x l :
  length (insert_sorted spec x l) = S (length l).
Proof.
  induction l as [|y l' IH]; simpl; [done|].
  destruct (order_of spec y x); simpl; auto.
Qed.

Lemma sort_docs_length l : length (sort_docs spec l) = length l.
Proof.
  induction l as [|x l' IH]; simpl; [done|].
  by rewrite insert_sorted_length, IH.
Qed.

(** The first document of a sorted list is one of the list that no
    other one precedes. *)
Lemma head_sort_docs l c :
  head (sort_docs spec l) = Some c ->
  c ∈ l /\ forall t, t ∈ l -> not_after spec c t.
Proof.
  revert c. induction l as [|x l' IH]; intros c; simpl; [done|].
  rewrite head_insert_sorted.
  destruct (head (sort_docs spec l')) as [y|] eqn:Hy.
  - destruct (IH y eq_refl) as [Hin Hmin].
    case_decide as Hlt; intros [= <-].
    + split; [by apply elem_of_cons; right|].
      intros t [->|Ht]%elem_of_cons; [|by auto].
      unfold not_after. by rewrite Hlt.
    + split; [by apply elem_of_cons; left|].
      intros t [->|Ht]%elem_of_cons.
      * unfold not_after. by rewrite order_of_refl.
      * apply not_after_trans with y; [|by auto].
        by destruct (not_after_total y x).
  - intros [= <-]. split; [by apply elem_of_cons; left|].
    assert (l' = []) as ->.
    { apply length_zero_iff_nil. rewrite <- (sort_docs_length l').
      by destruct (sort_docs spec l'). }
    intros t [->|Ht]%elem_of_cons; [|by apply elem_of_nil in Ht].
    unfold not_after. by rewrite order_of_refl.
Qed.

Lemma head_sort_docs_is_Some l : l <> [] -> is_Some (head (sort_docs spec l)).
Proof.
  intros Hne. destruct (sort_docs spec l) eqn:Hs; simpl; [|by eauto].
  apply (f_equal length) in Hs. rewrite sort_docs_length in Hs.
  by destruct l.
Qed.

End Sorting.

Lemma sort_docs_unsorted l : sort_docs [] l = l.
Proof.
  induction l as [|x l' IH]; simpl; [done|].
  rewrite IH. by destruct l'.
Qed.

(** What the two sort documents of the webhook mean. *)
Lemma newest_first a b :
  not_after [(createdAt, Descending)] a b <-> createdAt b <= createdAt a.
Proof.
  unfold not_after; simpl.
  destruct (Z.compare_spec (createdAt a) (createdAt b)); simpl;
    split; intros; try done; lia.
Qed.

Lemma largest_then_newest_first a b :
  not_after [(amount, Descending); (createdAt, Descending)] a b <->
  amount b < amount a \/ (amount b = amount a /\ createdAt b <= createdAt a).
Proof.
  unfold not_after; simpl.
  destruct (Z.compare_spec (amount a) (amount b)),
           (Z.compare_spec (createdAt a) (createdAt b)); simpl;
    split; intros; try done; lia.
Qed.

(** ** Queries *)

Lemma elem_of_List_filter {A} (f : A -> bool) (l : list A) (x : A) :
  x ∈ List.filter f l <-> x ∈ l /\ f x = true.
Proof. rewrite !list_elem_of_In. apply filter_In. Qed.

Lemma matches_pending t :
  matches pending_pix_deposit t = true <->
  type t = DEPOSIT /\ status t = PENDING /\ paymentMethod t = PIX.
Proof.
  unfold matches, pending_pix_deposit; simpl.
  rewrite !andb_true_r, !andb_true_iff, !bool_decide_eq_true. tauto.
Qed.

Lemma matches_pending_of u t :
  matches (pending_pix_deposit_of u) t = true <->
  userId t = u /\ matches pending_pix_deposit t = true.
Proof.
  rewrite matches_pending. unfold matches, pending_pix_deposit_of; simpl.
  rewrite !andb_true_r, !andb_true_iff, !bool_decide_eq_true. tauto.
Qed.

Lemma matches_other_pending_of u i t :
  matches (other_pending_pix_deposit_of u i) t = true <->
  _id t <> i /\ matches (pending_pix_deposit_of u) t = true.
Proof.
  rewrite matches_pending_of, matches_pending.
  unfold matches, other_pending_pix_deposit_of; simpl.
  rewrite !andb_true_r, !andb_true_iff, !bool_decide_eq_true,
    negb_true_iff, bool_decide_eq_false.
  tauto.
Qed.

Section FindOne.

Variables (q : Filter) (spec : SortSpec) (db : Db).

Lemma findOne_Some c :
  Transaction.findOne q spec db = Some c ->
  c ∈ transactions db /\ matches q c = true /\
  forall t, t ∈ transactions db -> matches q t = true -> not_after spec c t.
Proof.
  unfold Transaction.findOne, Transaction.find.
  intros [Hin Hmin]%head_sort_docs.
  apply elem_of_List_filter in Hin as [Hin Hq].
  repeat split; try done.
  intros t Ht Hqt. apply Hmin. by apply elem_of_List_filter.
Qed.

Lemma findOne_None :
  Transaction.findOne q spec db = None ->
  forall t, t ∈ transactions db -> matches q t = false.
Proof.
  unfold Transaction.findOne, Transaction.find. intros Hnone t Ht.
  destruct (matches q t) eqn:Hq; [|done].
  destruct (head_sort_docs_is_Some spec
              (List.filter (matches q) (transactions db))) as [c Hc].
  - intros Hnil.
    assert (t ∈ List.filter (matches q) (transactions db)) as Hin
      by by apply elem_of_List_filter.
    rewrite Hnil in Hin. by apply elem_of_nil in Hin.
  - congruence.
Qed.

Lemma findOne_is_Some t :
  t ∈ transactions db -> matches q t = true ->
  is_Some (Transaction.findOne q spec db).
Proof.
  intros Ht Hq.
  destruct (Transaction.findOne q spec db) eqn:Hf; [by eauto|].
  rewrite (findOne_None Hf t Ht) in Hq. done.
Qed.

End FindOne.

(** ** The runs of the webhook *)

(** Every call of the handler follows one of the paths. *)
Lemma pixWebhook_run fails now req_body db :
  webhook_run fails now req_body db
    (pixWebhook fails now req_body db).1
    (pixWebhook fails now req_body db).2.
Proof.
  unfold pixWebhook, try_catch, pixWebhook_body, mbind, Handler_bind,
    js, await, query, command, respond, mret, Handler_ret.
  destruct (destructure req_body "requestBody") as [rb|] eqn:Hrb;
    [|by apply run_type_error].
  destruct (invalid_payload rb) eqn:Hok; [by eapply run_invalid|].
  destruct (fails FindAnyPending) eqn:F1;
    [by eapply run_rejected_before_save; eauto|].
  destruct (Transaction.findOne pending_pix_deposit _ db) as [any|] eqn:Hany;
    [|by eapply run_no_pending].
  destruct (fails FindLargestPending) eqn:F2;
    [by eapply run_rejected_before_save; eauto|].
  destruct (Transaction.findOne (pending_pix_deposit_of _) _ db)
    as [c|] eqn:Hc; [|by eapply run_no_pending_for_user].
  destruct (fails UserFindById) eqn:F3;
    [by eapply run_rejected_before_save; eauto 6|].
  destruct (User.findById (userId c) db) as [usr|] eqn:Husr;
    [|by eapply run_user_not_found].
  destruct (fails SaveCompleted) eqn:F4;
    [by eapply run_rejected_before_save; eauto 6|].
  destruct (fails FindOtherPending) eqn:F5;
    [by eapply run_rejected_after_save; eauto|].
  pose proof (run_success fails now req_body db rb any c usr
                Hrb Hok Hany Hc Husr F1 F2 F3 F4 F5)
    as Hrun.
  unfold after_cancel, success_data in Hrun.
  simpl (_id (mark_completed _ _ _ _)).
  simpl (amount (mark_completed _ _ _ _)).
  fold (after_save now db rb any c). fold (siblings now db rb any c).
  destruct (bool_decide (0 < length (siblings now db rb any c))%nat) eqn:Hlen.
  - destruct (fails CancelOthers) eqn:F6; [|exact Hrun].
    eapply run_rejected_after_save; eauto.
    right. split; [|done]. intros Hnil.
    apply bool_decide_eq_true in Hlen. rewrite Hnil in Hlen.
    simpl in Hlen. lia.
  - exact Hrun.
Qed.

(** ** Well-formed stores and lookups by [_id] *)

Lemma elem_of_map_id (l : list TransactionDoc) t :
  t ∈ l -> _id t ∈ map _id l.
Proof. rewrite !list_elem_of_In. apply in_map. Qed.

Lemma findById_Some i db t :
  Transaction.findById i db = Some t -> t ∈ transactions db /\ _id t = i.
Proof.
  unfold Transaction.findById. intros Hh%head_Some_elem_of.
  apply elem_of_List_filter in Hh as [Hin Hid].
  by apply bool_decide_eq_true in Hid.
Qed.

Lemma findById_elem db t :
  NoDup (map _id (transactions db)) -> t ∈ transactions db ->
  Transaction.findById (_id t) db = Some t.
Proof.
  unfold Transaction.findById.
  induction (transactions db) as [|x l IH]; simpl; intros Hnd Ht.
  - by apply elem_of_nil in Ht.
  - apply NoDup_cons in Hnd as [Hx Hnd].
    apply elem_of_cons in Ht as [->|Ht].
    + by rewrite bool_decide_eq_true_2.
    + rewrite bool_decide_eq_false_2; [by apply IH|].
      intros Heq. apply Hx. rewrite Heq. by apply elem_of_map_id.
Qed.

(** A store operation that rewrites documents in place, keeping their
    ids, commutes with the lookup. *)
Lemma findById_map f i db db' :
  transactions db' = map f (transactions db) ->
  (forall t, _id (f t) = _id t) ->
  Transaction.findById i db' = f <$> Transaction.findById i db.
Proof.
  unfold Transaction.findById. intros -> Hid.
  induction (transactions db) as [|x l IH]; simpl; [done|].
  rewrite Hid. case_bool_decide; simpl; [done|apply IH].
Qed.

Lemma map_id_map f (l : list TransactionDoc) :
  (forall t, _id (f t) = _id t) -> map _id (map f l) = map _id l.
Proof.
  intros Hid. induction l as [|x l IH]; simpl; [done|]. by rewrite Hid, IH.
Qed.

(** ** The two writes of the reconciliation *)

Lemma resolve_id rb now c t : _id (resolve rb now c t) = _id t.
Proof.
  unfold resolve. case_bool_decide; [done|].
  by destruct (matches _ t).
Qed.

Lemma complete_only_id rb now c t : _id (complete_only rb now c t) = _id t.
Proof. unfold complete_only. by case_bool_decide. Qed.

Lemma map_if_filter_nil {A} (f : A -> bool) (h : A -> A) (l : list A) :
  List.filter f l = [] -> map (fun t => if f t then h t else t) l = l.
Proof.
  induction l as [|x l IH]; simpl; [done|].
  destruct (f x); [done|]. intros Hnil. by rewrite IH.
Qed.

Section Writes.

Variables (now : Z) (db : Db) (rb : jsval) (any c : TransactionDoc).

Hypothesis Hc :
  Transaction.findOne (pending_pix_deposit_of (userId any))
    [(amount, Descending); (createdAt, Descending)] db = Some c.

Lemma candidate_pending :
  c ∈ transactions db /\ userId c = userId any /\
  type c = DEPOSIT /\ status c = PENDING /\ paymentMethod c = PIX.
Proof.
  apply findOne_Some in Hc as (Hin & Hq & _).
  apply matches_pending_of in Hq as [Hu Hq].
  apply matches_pending in Hq. tauto.
Qed.

Lemma after_save_transactions :
  transactions (after_save now db rb any c)
  = map (complete_only rb now c) (transactions db).
Proof.
  destruct candidate_pending as (_ & Hu & _).
  unfold after_save, complete_only; simpl. by rewrite Hu.
Qed.

Lemma after_save_users :
  users (after_save now db rb any c)
  = alter (User.credit (amount c)) (userId c) (users db).
Proof.
  destruct candidate_pending as (_ & _ & Hty & Hst & _).
  unfold after_save, Transaction.save, ledger_on_save; simpl.
  by rewrite Hst, Hty.
Qed.

(** The siblings found after the save are the pending deposits of the
    user other than the candidate, as they were before the save. *)
Lemma siblings_before :
  siblings now db rb any c
  = List.filter (matches (other_pending_pix_deposit_of (userId c) (_id c)))
      (transactions db).
Proof.
  destruct candidate_pending as (_ & Hu & _).
  unfold siblings, Transaction.find.
  rewrite sort_docs_unsorted, after_save_transactions, <- Hu.
  induction (transactions db) as [|x l IH]; [done|].
  cbn [map List.filter]. rewrite IH. unfold complete_only.
  case_bool_decide as Hid; [|done].
  assert (forall t, _id t = _id c ->
            matches (other_pending_pix_deposit_of (userId c) (_id c)) t
            = false) as Hno.
  { intros t Ht.
    destruct (matches _ t) eqn:Hm; [|done].
    by apply matches_other_pending_of in Hm as [? _]. }
  by rewrite !Hno.
Qed.

Lemma after_cancel_transactions :
  transactions (after_cancel now db rb any c)
  = map (resolve rb now c) (transactions db).
Proof.
  destruct candidate_pending as (_ & Hu & _).
  assert (map (fun t =>
                 if matches (other_pending_pix_deposit_of (userId c) (_id c)) t
                 then Transaction.stamp now
                        (Transaction.apply_patch (cancel_patch now) t)
                 else t)
              (map (complete_only rb now c) (transactions db))
          = map (resolve rb now c) (transactions db)) as Hboth.
  { rewrite map_map. apply map_ext. intros t.
    unfold complete_only, resolve. case_bool_decide as Hid.
    - destruct (matches _ (Transaction.stamp _ _)) eqn:Hm; [|done].
      apply matches_other_pending_of in Hm as [Hne _]. done.
    - destruct (matches (other_pending_pix_deposit_of _ _) t) eqn:Hm.
      + apply matches_other_pending_of in Hm as [_ ->]. done.
      + destruct (matches (pending_pix_deposit_of _) t) eqn:Hm'; [|done].
        assert (matches (other_pending_pix_deposit_of (userId c) (_id c)) t
                = true) as Hm''
          by by apply matches_other_pending_of.
        congruence. }
  unfold after_cancel. case_bool_decide as Hlen.
  - unfold Transaction.updateMany. cbn [transactions].
    rewrite after_save_transactions, <- Hu. exact Hboth.
  - rewrite after_save_transactions, <- Hboth.
    symmetry. apply map_if_filter_nil.
    assert (siblings now db rb any c = []) as Hnil.
    { destruct (siblings now db rb any c); [done|]. simpl in Hlen. lia. }
    unfold siblings, Transaction.find in Hnil.
    rewrite sort_docs_unsorted, after_save_transactions, <- Hu in Hnil.
    exact Hnil.
Qed.

Lemma after_cancel_users :
  users (after_cancel now db rb any c)
  = alter (User.credit (amount c)) (userId c) (users db).
Proof.
  unfold after_cancel. case_bool_decide; [|apply after_save_users].
  unfold Transaction.updateMany. cbn [users]. apply after_save_users.
Qed.

End Writes.

(** ** Payloads *)

Lemma is_string_true v lit : is_string v lit = true <-> v = JStr lit.
Proof.
  destruct v; simpl; try (split; intros; congruence).
  rewrite String.eqb_eq. split; intros; congruence.
Qed.

Lemma invalid_payload_false rb : invalid_payload rb = false <-> paid rb.
Proof.
  unfold invalid_payload, paid.
  rewrite orb_false_iff, !negb_false_iff, is_string_true.
  split; [tauto|]. intros Hst. split; [|done].
  destruct rb; simpl in *; try done.
Qed.

Lemma invalid_payload_true rb : invalid_payload rb = true <-> ~ paid rb.
Proof.
  rewrite <- invalid_payload_false. by destruct (invalid_payload rb).
Qed.

(** Case analysis on the path a call of the handler took. *)
Ltac webhook_cases :=
  match goal with
  | |- context [pixWebhook ?f ?n ?b ?d] =>
      let Hrun := fresh "Hrun" in
      pose proof (pixWebhook_run f n b d) as Hrun;
      destruct (pixWebhook f n b d) as [? ?];
      cbn [fst snd] in Hrun |- *;
      inversion Hrun; subst; clear Hrun
  end.

(** ** Rejections *)

(** C7.  A request whose payload [requestBody] is missing, or whose
    [status] is not the string 'PAID', is answered with the InvalidWebhook
    error, status 400, and the database is left exactly as it was,
    whatever the store would have done. *)
Theorem invalid_payload_rejected fails now req_body rb db :
  destructure req_body "requestBody" = Some rb ->
  rb = JUndefined \/ get_field rb "status" <> JStr "PAID" ->
  pixWebhook fails now req_body db = (InvalidWebhook, db) /\
  http_status (pixWebhook fails now req_body db).1 = 400.
Proof.
  intros Hrb Hbad.
  assert (invalid_payload rb = true) as Hinv.
  { apply invalid_payload_true. unfold paid. by destruct Hbad as [->|]. }
  assert (pixWebhook fails now req_body db = (InvalidWebhook, db)) as ->.
  { unfold pixWebhook, try_catch, pixWebhook_body, mbind, Handler_bind, js.
    by rewrite Hrb, Hinv. }
  done.
Qed.

Lemma invalid_payload_rejected_witness :
  pixWebhook (fun _ => true) 1000
    (JObj [("requestBody", JObj [("status", JStr "PENDING")])])
    {| transactions := []; users := ∅; pixCredentials := []; nextId := 0 |}
  = (InvalidWebhook,
     {| transactions := []; users := ∅; pixCredentials := []; nextId := 0 |}).
Proof.
  refine (proj1 (invalid_payload_rejected _ _ _
                   (JObj [("status", JStr "PENDING")]) _ _ _)).
  - reflexivity.
  - right. simpl. discriminate.
Defined.

(** The answer when the first search finds nothing. *)
Lemma pixWebhook_nothing_pending fails now req_body rb db :
  destructure req_body "requestBody" = Some rb ->
  paid rb ->
  fails FindAnyPending = false ->
  (forall t, t ∈ transactions db -> ~ pending_pix t) ->
  pixWebhook fails now req_body db = (NoPendingDeposit, db).
Proof.
  intros Hrb Hpaid%invalid_payload_false Hf Hnone.
  assert (Transaction.findOne pending_pix_deposit
            [(createdAt, Descending)] db = None) as Hfind.
  { destruct (Transaction.findOne _ _ db) as [any|] eqn:Hany; [|done].
    apply findOne_Some in Hany as (Hin & Hq & _).
    apply matches_pending in Hq. by destruct (Hnone any Hin). }
  unfold pixWebhook, try_catch, pixWebhook_body, mbind, Handler_bind,
    js, await, query, respond.
  by rewrite Hrb, Hpaid, Hf, Hfind.
Qed.

(** C8.  With a success payload and no PENDING PIX deposit anywhere in
    the store, the handler answers with the NoPendingDeposit error,
    status 404, and changes nothing. *)
Theorem no_pending_rejected fails now req_body rb db :
  destructure req_body "requestBody" = Some rb ->
  paid rb ->
  fails FindAnyPending = false ->
  (forall t, t ∈ transactions db -> ~ pending_pix t) ->
  pixWebhook fails now req_body db = (NoPendingDeposit, db) /\
  http_status (pixWebhook fails now req_body db).1 = 404.
Proof.
  intros Hrb Hpaid Hf Hnone.
  by rewrite (pixWebhook_nothing_pending fails now req_body rb db).
Qed.

(** The deposit that identifies the user is a candidate for that user. *)
Lemma owner_has_candidate db any :
  Transaction.findOne pending_pix_deposit [(createdAt, Descending)] db
    = Some any ->
  matches (pending_pix_deposit_of (userId any)) any = true /\
  is_Some (Transaction.findOne (pending_pix_deposit_of (userId any))
             [(amount, Descending); (createdAt, Descending)] db).
Proof.
  intros (Hin & Hq & _)%findOne_Some.
  assert (matches (pending_pix_deposit_of (userId any)) any = true) as Hq'
    by by apply matches_pending_of.
  split; [done|]. by eapply findOne_is_Some.
Qed.

(** C10.  The per-user NoPendingDeposit answer is never given: the
    deposit that identified the user is itself a PENDING PIX deposit of
    that user, so the second search finds a candidate whenever the first
    one found a deposit. *)
Theorem per_user_not_found_unreachable fails now req_body db :
  (pixWebhook fails now req_body db).1 <> NoPendingDepositForUser /\
  forall any,
    Transaction.findOne pending_pix_deposit [(createdAt, Descending)] db
      = Some any ->
    any ∈ transactions db /\
    matches (pending_pix_deposit_of (userId any)) any = true /\
    is_Some (Transaction.findOne (pending_pix_deposit_of (userId any))
               [(amount, Descending); (createdAt, Descending)] db).
Proof.
  split.
  - webhook_cases; try discriminate.
    match goal with
    | Hany : Transaction.findOne pending_pix_deposit _ _ = Some ?a,
      Hnone : Transaction.findOne (pending_pix_deposit_of _) _ _ = None
      |- _ =>
        destruct (owner_has_candidate _ a Hany) as [_ [c Hc]]; congruence
    end.
  - intros any Hany. split; [by apply findOne_Some in Hany as [? _]|].
    by apply owner_has_candidate.
Qed.

Lemma no_pending_rejected_witness :
  let db := {| transactions :=
                 [ {| _id := 0; userId := 7; type := DEPOSIT; amount := 50;
                      status := COMPLETED; paymentMethod := PIX;
                      externalReference := "PIX_1_7"; metadata := [];
                      createdAt := 1; updatedAt := 2 |} ];
               users := ∅; pixCredentials := []; nextId := 1 |} in
  pixWebhook no_faults 1000
    (JObj [("requestBody", JObj [("status", JStr "PAID")])]) db
  = (NoPendingDeposit, db).
Proof.
  intros db.
  refine (proj1 (no_pending_rejected no_faults 1000 _
                   (JObj [("status", JStr "PAID")]) db _ _ _ _)).
  - reflexivity.
  - reflexivity.
  - reflexivity.
  - intros t [->|Hnil]%elem_of_cons (_ & Hst & _).
    + discriminate.
    + by apply elem_of_nil in Hnil.
Defined.

(** ** Runs in which no store call is rejected *)

(** With a success payload and a PENDING PIX deposit in the store, a
    fault-free run finds a candidate and either stops at a missing user
    record or goes through both writes. *)
Lemma pixWebhook_no_faults now req_body rb db any :
  destructure req_body "requestBody" = Some rb ->
  paid rb ->
  Transaction.findOne pending_pix_deposit [(createdAt, Descending)] db
    = Some any ->
  exists c,
    Transaction.findOne (pending_pix_deposit_of (userId any))
      [(amount, Descending); (createdAt, Descending)] db = Some c /\
    match User.findById (userId any) db with
    | None => pixWebhook no_faults now req_body db = (UserNotFound, db)
    | Some _ =>
        pixWebhook no_faults now req_body db
        = (WebhookProcessed (success_data now db rb any c),
           after_cancel now db rb any c)
    end.
Proof.
  intros Hrb Hpaid%invalid_payload_false Hany.
  destruct (owner_has_candidate db any Hany) as [_ [c Hc]].
  exists c. split; [done|].
  destruct (candidate_pending db any c Hc) as (_ & Hu & _).
  unfold pixWebhook, try_catch, pixWebhook_body, mbind, Handler_bind,
    js, await, query, command, respond, mret, Handler_ret, no_faults.
  rewrite Hrb, Hpaid, Hany, Hc, Hu.
  destruct (User.findById (userId any) db) as [usr|]; [|done].
  simpl (_id (mark_completed _ _ _ _)).
  simpl (amount (mark_completed _ _ _ _)).
  fold (after_save now db rb any c). fold (siblings now db rb any c).
  unfold after_cancel, success_data.
  by destruct (bool_decide (0 < length (siblings now db rb any c))%nat).
Qed.

(** ** The reconciliation *)

Lemma same_id_same_doc db t t' :
  wf_db db -> t ∈ transactions db -> t' ∈ transactions db ->
  _id t = _id t' -> t = t'.
Proof.
  intros [Hnd _] Ht Ht' Hid.
  pose proof (findById_elem db t Hnd Ht) as H1.
  pose proof (findById_elem db t' Hnd Ht') as H2.
  rewrite Hid in H1. congruence.
Qed.

Lemma NoDup_map_eq {A B} (f : A -> B) (l : list A) x y :
  NoDup (map f l) -> x ∈ l -> y ∈ l -> f x = f y -> x = y.
Proof.
  induction l as [|z l IH]; simpl; intros Hnd Hx Hy Hf.
  - by apply elem_of_nil in Hx.
  - apply NoDup_cons in Hnd as [Hz Hnd].
    assert (forall w, w ∈ l -> f w ∈ map f l) as Hin.
    { intros w. rewrite !list_elem_of_In. apply in_map. }
    apply elem_of_cons in Hx as [->|Hx]; apply elem_of_cons in Hy as [->|Hy];
      auto.
    + destruct Hz. rewrite Hf. by apply Hin.
    + destruct Hz. rewrite <- Hf. by apply Hin.
Qed.

(** The candidate is counted once among the pending deposits of its
    owner; the others are the siblings. *)
Lemma pending_of_split db c :
  wf_db db -> c ∈ pending_of (userId c) db ->
  length (pending_of (userId c) db)
  = S (length (List.filter
                 (matches (other_pending_pix_deposit_of (userId c) (_id c)))
                 (transactions db))).
Proof.
  unfold pending_of. intros [Hnd _] [Hin Hq]%elem_of_List_filter.
  induction (transactions db) as [|x l IH]; [by apply elem_of_nil in Hin|].
  simpl in Hnd. apply NoDup_cons in Hnd as [Hx Hnd].
  cbn [List.filter].
  apply elem_of_cons in Hin as [<-|Hin].
  - rewrite Hq.
    replace (matches (other_pending_pix_deposit_of (userId c) (_id c)) c)
      with false.
    2:{ symmetry. apply not_true_is_false.
        by intros [? _]%matches_other_pending_of. }
    simpl. f_equal. f_equal.
    apply filter_ext_in. intros t Ht%list_elem_of_In.
    destruct (matches (pending_pix_deposit_of _) t) eqn:Hm.
    + symmetry. apply matches_other_pending_of. split; [|done].
      intros Heq. apply Hx. rewrite <- Heq. by apply elem_of_map_id.
    + symmetry. apply not_true_is_false.
      intros [_ ?]%matches_other_pending_of. congruence.
  - assert (_id x <> _id c) as Hne.
    { intros Heq. apply Hx. rewrite Heq. by apply elem_of_map_id. }
    specialize (IH Hnd Hin).
    destruct (matches (pending_pix_deposit_of _) x) eqn:Hm.
    + replace (matches (other_pending_pix_deposit_of (userId c) (_id c)) x)
        with true.
      2:{ symmetry. by apply matches_other_pending_of. }
      simpl. by rewrite IH.
    + replace (matches (other_pending_pix_deposit_of (userId c) (_id c)) x)
        with false; [done|].
      symmetry. apply not_true_is_false.
      intros [_ ?]%matches_other_pending_of. congruence.
Qed.

(** What a fault-free run does for the identified user [u], whose record
    exists: it answers with a success, and the candidate [c], first of
    the user's pending deposits by amount and then by creation time, is
    COMPLETED while every other pending deposit of the user is
    CANCELLED. *)
Lemma reconciliation_outcome now req_body rb db u :
  wf_db db ->
  destructure req_body "requestBody" = Some rb ->
  paid rb ->
  identified_user db = Some u ->
  is_Some (User.findById u db) ->
  exists any c,
    Transaction.findOne pending_pix_deposit [(createdAt, Descending)] db
      = Some any /\
    userId any = u /\ userId c = u /\
    Transaction.findOne (pending_pix_deposit_of u)
      [(amount, Descending); (createdAt, Descending)] db = Some c /\
    pixWebhook no_faults now req_body db
      = (WebhookProcessed (success_data now db rb any c),
         after_cancel now db rb any c) /\
    c ∈ pending_of u db /\
    (forall t, t ∈ pending_of u db ->
       amount t < amount c \/
       (amount t = amount c /\ createdAt t <= createdAt c)) /\
    status_of (_id c) (after_cancel now db rb any c) = Some COMPLETED /\
    (forall t, t ∈ pending_of u db -> t <> c ->
       status_of (_id t) (after_cancel now db rb any c) = Some CANCELLED) /\
    length (siblings now db rb any c) = (length (pending_of u db) - 1)%nat.
Proof.
  intros Hwf Hrb Hpaid Hu [usr Husr].
  unfold identified_user in Hu.
  destruct (Transaction.findOne pending_pix_deposit _ db) as [any|] eqn:Hany;
    [|done].
  injection Hu as Hu.
  destruct (pixWebhook_no_faults now req_body rb db any Hrb Hpaid Hany)
    as (c & Hc & Hrun).
  rewrite Hu, Husr in Hrun. rewrite Hu in Hc.
  assert (Hc' := Hc). rewrite <- Hu in Hc'.
  destruct (candidate_pending db any c Hc') as (Hcin & Hcu & _).
  rewrite Hu in Hcu.
  pose proof (findOne_Some _ _ _ c Hc) as (_ & Hcq & Hmin).
  assert (c ∈ pending_of u db) as Hcp by by apply elem_of_List_filter.
  assert (forall i,
            Transaction.findById i (after_cancel now db rb any c)
            = resolve rb now c <$> Transaction.findById i db) as Hfind.
  { intros i. apply findById_map; [|apply resolve_id].
    by apply after_cancel_transactions. }
  exists any, c. repeat split; try done.
  - intros t [Ht Hq]%elem_of_List_filter.
    by apply largest_then_newest_first, Hmin.
  - unfold status_of. rewrite Hfind, (findById_elem db c); [|apply Hwf|done].
    simpl. unfold resolve. by rewrite bool_decide_eq_true_2.
  - intros t [Ht Hq]%elem_of_List_filter Hne. unfold status_of.
    rewrite Hfind, (findById_elem db t); [|apply Hwf|done].
    simpl. unfold resolve. rewrite bool_decide_eq_false_2.
    + by rewrite Hcu, Hq.
    + intros Heq. apply Hne. by eapply same_id_same_doc.
  - rewrite (siblings_before now db rb any c Hc').
    rewrite <- Hcu in Hcp |- *. rewrite (pending_of_split db c Hwf Hcp). lia.
Qed.

(** Well-formedness of a concrete store, by evaluation. *)
Ltac solve_wf_db :=
  split;
  [ apply (bool_decide_unpack _); vm_compute; exact I
  | let t := fresh "t" in
    let Ht := fresh "Ht" in
    intros t Ht;
    match type of Ht with
    | _ ∈ ?l => let l' := eval vm_compute in l in change l with l' in Ht
    end;
    repeat (apply elem_of_cons in Ht as [->|Ht]; [vm_compute; lia|]);
    by apply elem_of_nil in Ht ].

(** ** The claims on the reconciliation *)

(** C5.  When the store holds a PENDING PIX deposit, the user the
    handler works for is the owner of a PENDING PIX deposit that no other
    PENDING PIX deposit of any user is newer than: a fault-free run with
    a success payload either credits that user or, when the user record
    is gone, answers UserNotFound. *)
Theorem target_user_owns_newest_pending now req_body rb db :
  destructure req_body "requestBody" = Some rb ->
  paid rb ->
  (exists t, t ∈ transactions db /\ pending_pix t) ->
  exists any,
    any ∈ transactions db /\ pending_pix any /\
    (forall t, t ∈ transactions db -> pending_pix t ->
       createdAt t <= createdAt any) /\
    identified_user db = Some (userId any) /\
    match User.findById (userId any) db with
    | None => (pixWebhook no_faults now req_body db).1 = UserNotFound
    | Some _ =>
        exists d, (pixWebhook no_faults now req_body db).1 = WebhookProcessed d
                  /\ wd_userId d = userId any
    end.
Proof.
  intros Hrb Hpaid (t0 & Ht0 & Hp0).
  destruct (findOne_is_Some pending_pix_deposit [(createdAt, Descending)]
              db t0 Ht0) as [any Hany]; [by apply matches_pending|].
  pose proof (findOne_Some _ _ _ any Hany) as (Hin & Hq & Hmin).
  exists any. split; [done|]. split; [by apply matches_pending|].
  split.
  { intros t Ht Hp. apply newest_first, Hmin; [done|].
    by apply matches_pending. }
  split; [unfold identified_user; by rewrite Hany|].
  destruct (pixWebhook_no_faults now req_body rb db any Hrb Hpaid Hany)
    as (c & _ & Hrun).
  destruct (User.findById (userId any) db).
  - rewrite Hrun. by eexists.
  - by rewrite Hrun.
Qed.

Lemma target_user_owns_newest_pending_witness :
  exists d, (pixWebhook no_faults 1000 paid_35 db_two_users).1
            = WebhookProcessed d /\ wd_userId d = 7%nat.
Proof.
  destruct (target_user_owns_newest_pending 1000 paid_35
              (JObj [("status", JStr "PAID"); ("amount", JNum 35)])
              db_two_users)
    as (any & Hin & _ & Hnew & Hid & Hrun).
  - reflexivity.
  - reflexivity.
  - exists (pix_deposit 0 7 500 PENDING 100).
    split; [apply elem_of_cons; by left|done].
  - assert (userId any = 7%nat) as Hu.
    { assert (identified_user db_two_users = Some 7%nat) as Hid'
        by reflexivity.
      rewrite Hid' in Hid. by injection Hid. }
    rewrite Hu in Hrun. exact Hrun.
Defined.

(** C1.  Let the identified user, whose record exists, have N PENDING
    PIX deposits of pairwise distinct amounts.  After a fault-free call
    with a success payload the one with the largest amount is COMPLETED
    and each of the other N-1 is CANCELLED, which is also the count the
    answer reports. *)
Theorem largest_completed_rest_cancelled now req_body rb db u :
  wf_db db ->
  destructure req_body "requestBody" = Some rb ->
  paid rb ->
  identified_user db = Some u ->
  is_Some (User.findById u db) ->
  NoDup (map amount (pending_of u db)) ->
  exists d after c,
    pixWebhook no_faults now req_body db = (WebhookProcessed d, after) /\
    c ∈ pending_of u db /\
    (forall t, t ∈ pending_of u db -> t <> c -> amount t < amount c) /\
    status_of (_id c) after = Some COMPLETED /\
    (forall t, t ∈ pending_of u db -> t <> c ->
       status_of (_id t) after = Some CANCELLED) /\
    wd_cancelledTransactions d = (length (pending_of u db) - 1)%nat.
Proof.
  intros Hwf Hrb Hpaid Hu Husr Hdistinct.
  destruct (reconciliation_outcome now req_body rb db u Hwf Hrb Hpaid Hu Husr)
    as (any & c & _ & _ & _ & _ & Hrun & Hc & Hmax & Hdone & Hrest & Hlen).
  exists (success_data now db rb any c), (after_cancel now db rb any c), c.
  repeat split; try done.
  intros t Ht Hne. destruct (Hmax t Ht) as [Hlt|[Heq _]]; [done|].
  destruct Hne. by eapply NoDup_map_eq.
Qed.

Lemma largest_completed_rest_cancelled_witness :
  exists d after c,
    pixWebhook no_faults 1000 paid_35 db_500_35 = (WebhookProcessed d, after) /\
    c ∈ pending_of 7 db_500_35 /\
    (forall t, t ∈ pending_of 7 db_500_35 -> t <> c -> amount t < amount c) /\
    status_of (_id c) after = Some COMPLETED /\
    (forall t, t ∈ pending_of 7 db_500_35 -> t <> c ->
       status_of (_id t) after = Some CANCELLED) /\
    wd_cancelledTransactions d = (length (pending_of 7 db_500_35) - 1)%nat.
Proof.
  apply (largest_completed_rest_cancelled 1000 paid_35
           (JObj [("status", JStr "PAID"); ("amount", JNum 35)])).
  - solve_wf_db.
  - reflexivity.
  - reflexivity.
  - reflexivity.
  - eexists. vm_compute. reflexivity.
  - apply (bool_decide_unpack _). vm_compute. exact I.
Defined.

(** C6.  Whatever the amounts, the deposit that a fault-free call
    completes for the identified user has the largest amount among the
    user's PENDING PIX deposits and, among those that share this amount,
    a creation time that none of them exceeds; every other one is
    CANCELLED. *)
Theorem tie_broken_by_newest now req_body rb db u :
  wf_db db ->
  destructure req_body "requestBody" = Some rb ->
  paid rb ->
  identified_user db = Some u ->
  is_Some (User.findById u db) ->
  exists d after c,
    pixWebhook no_faults now req_body db = (WebhookProcessed d, after) /\
    c ∈ pending_of u db /\
    (forall t, t ∈ pending_of u db -> amount t <= amount c) /\
    (forall t, t ∈ pending_of u db -> amount t = amount c ->
       createdAt t <= createdAt c) /\
    status_of (_id c) after = Some COMPLETED /\
    (forall t, t ∈ pending_of u db -> t <> c ->
       status_of (_id t) after = Some CANCELLED).
Proof.
  intros Hwf Hrb Hpaid Hu Husr.
  destruct (reconciliation_outcome now req_body rb db u Hwf Hrb Hpaid Hu Husr)
    as (any & c & _ & _ & _ & _ & Hrun & Hc & Hmax & Hdone & Hrest & _).
  exists (success_data now db rb any c), (after_cancel now db rb any c), c.
  repeat split; try done.
  - intros t Ht. destruct (Hmax t Ht); lia.
  - intros t Ht Heq. destruct (Hmax t Ht); lia.
Qed.

Lemma tie_broken_by_newest_witness :
  exists d after c,
    pixWebhook no_faults 1000 paid_35 db_tie = (WebhookProcessed d, after) /\
    c ∈ pending_of 7 db_tie /\
    (forall t, t ∈ pending_of 7 db_tie -> amount t <= amount c) /\
    (forall t, t ∈ pending_of 7 db_tie -> amount t = amount c ->
       createdAt t <= createdAt c) /\
    status_of (_id c) after = Some COMPLETED /\
    (forall t, t ∈ pending_of 7 db_tie -> t <> c ->
       status_of (_id t) after = Some CANCELLED).
Proof.
  apply (tie_broken_by_newest 1000 paid_35
           (JObj [("status", JStr "PAID"); ("amount", JNum 35)])).
  - solve_wf_db.
  - reflexivity.
  - reflexivity.
  - reflexivity.
  - eexists. vm_compute. reflexivity.
Defined.

(** The two scenarios, run. *)
Example scenario_500_35 :
  let r := pixWebhook no_faults 1000 paid_35 db_500_35 in
  map (fun t => (_id t, amount t, status t)) (transactions r.2)
    = [(0%nat, 500, COMPLETED); (1%nat, 35, CANCELLED)] /\
  balance <$> User.findById 7 r.2 = Some 510.
Proof. by vm_compute. Qed.

Example scenario_single :
  let r := pixWebhook no_faults 1000 paid_35 db_single in
  (exists d, r.1 = WebhookProcessed d /\ wd_totalCredited d = 35 /\
             wd_cancelledTransactions d = 0%nat) /\
  map (fun t => (_id t, amount t, status t)) (transactions r.2)
    = [(0%nat, 35, COMPLETED)] /\
  balance <$> User.findById 7 r.2 = Some 45.
Proof. vm_compute. split; [by eexists|done]. Qed.

Example scenario_tie :
  let r := pixWebhook no_faults 1000 paid_35 db_tie in
  map (fun t => (_id t, createdAt t, status t)) (transactions r.2)
    = [(0%nat, 100, CANCELLED); (1%nat, 150, COMPLETED);
       (2%nat, 200, CANCELLED)].
Proof. by vm_compute. Qed.

(** C2.  In every run that ends with the success answer, the balance of
    the identified user grows by the amount of the candidate, which is
    the credited total the answer reports, and no other balance moves;
    the cancellations add nothing.  (The balance moves through the
    ledger middleware modelled by [ledger_on_save].) *)
Theorem balance_credited_once fails now req_body db d after :
  pixWebhook fails now req_body db = (WebhookProcessed d, after) ->
  exists usr c,
    User.findById (wd_userId d) db = Some usr /\
    Transaction.findOne (pending_pix_deposit_of (wd_userId d))
      [(amount, Descending); (createdAt, Descending)] db = Some c /\
    wd_totalCredited d = amount c /\
    balance <$> User.findById (wd_userId d) after
      = Some (balance usr + amount c) /\
    (forall u', u' <> wd_userId d ->
       User.findById u' after = User.findById u' db).
Proof.
  intros Hcall.
  pose proof (pixWebhook_run fails now req_body db) as Hrun.
  rewrite Hcall in Hrun. cbn [fst snd] in Hrun.
  inversion Hrun as [| | | | | | |rb any c usr Hrb Hok Hany Hc Husr]; subst.
  destruct (candidate_pending db any c Hc) as (_ & Hu & _).
  exists usr, c. cbn [wd_userId wd_totalCredited success_data].
  rewrite <- Hu. repeat split; try done.
  - by rewrite Hu.
  - unfold User.findById in *.
    rewrite (after_cancel_users now db rb any c Hc), lookup_alter_eq, Husr.
    done.
  - intros u' Hne. unfold User.findById.
    rewrite (after_cancel_users now db rb any c Hc).
    by apply lookup_alter_ne.
Qed.

Lemma balance_credited_once_witness :
  exists usr c,
    User.findById 7 db_500_35 = Some usr /\
    Transaction.findOne (pending_pix_deposit_of 7)
      [(amount, Descending); (createdAt, Descending)] db_500_35 = Some c /\
    500 = amount c /\
    balance <$> User.findById 7
                  (pixWebhook no_faults 1000 paid_35 db_500_35).2
      = Some (balance usr + amount c) /\
    (forall u', u' <> 7%nat ->
       User.findById u'
         (pixWebhook no_faults 1000 paid_35 db_500_35).2
       = User.findById u' db_500_35).
Proof.
  apply (balance_credited_once no_faults 1000 paid_35 db_500_35
           {| wd_userId := 7; wd_originalAmount := 500;
              wd_actualPaymentAmount := JNum 35;
              wd_specialLogicApplied := true;
              wd_cancelledTransactions := 1;
              wd_totalCredited := 500 |}
           (pixWebhook no_faults 1000 paid_35 db_500_35).2).
  by vm_compute.
Defined.

(** ** Rejected store calls *)

Lemma elem_of_map_inv {A B} (f : A -> B) (l : list A) y :
  y ∈ map f l -> exists x, y = f x /\ x ∈ l.
Proof.
  rewrite list_elem_of_In, in_map_iff. intros (x & <- & Hx).
  exists x. by rewrite list_elem_of_In.
Qed.

(** C3, as the code has it.  The two writes are separate store calls
    and the [catch] only answers 500: nothing is rolled back.  For a
    success payload and an identified user whose record exists:
    - if one of the three reads that precede the save is rejected, the
      answer is the persistence failure and the database is as it was;
    - if the save goes through and a later call is rejected (the
      enumeration of the siblings, or their cancellation when there is a
      sibling), the answer is the persistence failure while the
      candidate, a pending deposit of the user of largest amount, is
      COMPLETED and its amount is on the balance of the user; no other
      balance has moved and every transaction that was not a PENDING PIX
      deposit of the user is as it was; when the rejected call is the
      enumeration, every sibling is still exactly as it was, PENDING.
    Nothing is said of what a write leaves behind that the store itself
    rejects (the save, the cancellation). *)
Theorem rejection_after_save_is_not_rolled_back fails now req_body rb db u
    usr :
  wf_db db ->
  destructure req_body "requestBody" = Some rb ->
  paid rb ->
  identified_user db = Some u ->
  User.findById u db = Some usr ->
  (fails FindAnyPending = true \/ fails FindLargestPending = true \/
   fails UserFindById = true ->
   pixWebhook fails now req_body db = (PersistenceFailure, db)) /\
  (fails FindAnyPending = false -> fails FindLargestPending = false ->
   fails UserFindById = false -> fails SaveCompleted = false ->
   fails FindOtherPending = true \/
   (fails CancelOthers = true /\ (1 < length (pending_of u db))%nat) ->
   (pixWebhook fails now req_body db).1 = PersistenceFailure /\
   exists c,
     c ∈ pending_of u db /\
     (forall t, t ∈ pending_of u db -> amount t <= amount c) /\
     status_of (_id c) (pixWebhook fails now req_body db).2
       = Some COMPLETED /\
     balance <$> User.findById u (pixWebhook fails now req_body db).2
       = Some (balance usr + amount c) /\
     (forall u', u' <> u ->
        User.findById u' (pixWebhook fails now req_body db).2
        = User.findById u' db) /\
     (forall t, t ∈ transactions db -> t ∉ pending_of u db ->
        Transaction.findById (_id t) (pixWebhook fails now req_body db).2
        = Some t) /\
     (fails FindOtherPending = true ->
      forall t, t ∈ pending_of u db -> t <> c ->
        Transaction.findById (_id t) (pixWebhook fails now req_body db).2
        = Some t)).
Proof.
  intros Hwf Hrb Hpaid%invalid_payload_false Hu Husr.
  unfold identified_user in Hu.
  destruct (Transaction.findOne pending_pix_deposit _ db) as [any|] eqn:Hany;
    [|done].
  injection Hu as Hu.
  destruct (owner_has_candidate db any Hany) as [_ [c Hc]].
  destruct (candidate_pending db any c Hc) as (Hcin & Hcu & _).
  pose proof (findOne_Some _ _ _ c Hc) as (_ & Hcq & Hmin).
  rewrite Hu in Hcq, Hcu, Hmin.
  assert (User.findById (userId c) db = Some usr) as Husr'
    by by rewrite Hcu.
  split.
  - intros Hearly.
    unfold pixWebhook, try_catch, pixWebhook_body, mbind, Handler_bind,
      js, await, query, command, respond, mret, Handler_ret.
    rewrite Hrb, Hpaid.
    destruct (fails FindAnyPending); [done|]. rewrite Hany.
    destruct (fails FindLargestPending); [done|]. rewrite Hc.
    destruct (fails UserFindById); [done|].
    by destruct Hearly as [|[|]].
  - intros F1 F2 F3 F4 Hlate.
    assert (pixWebhook fails now req_body db
            = (PersistenceFailure, after_save now db rb any c)) as ->.
    { unfold pixWebhook, try_catch, pixWebhook_body, mbind, Handler_bind,
        js, await, query, command, respond, mret, Handler_ret.
      rewrite Hrb, Hpaid, F1, Hany, F2, Hc, F3, Husr', F4.
      simpl (_id (mark_completed _ _ _ _)).
      fold (after_save now db rb any c). fold (siblings now db rb any c).
      destruct (fails FindOtherPending) eqn:F5; [done|].
      destruct Hlate as [|[F6 Hlen]]; [done|].
      rewrite bool_decide_eq_true_2, F6; [done|].
      rewrite (siblings_before now db rb any c Hc), Hcu.
      assert (c ∈ pending_of (userId c) db) as Hcp
        by (rewrite Hcu; by apply elem_of_List_filter).
      pose proof (pending_of_split db c Hwf Hcp) as Hsplit.
      rewrite Hcu in Hsplit. lia. }
    cbn [fst snd]. split; [done|]. exists c.
    assert (forall i,
              Transaction.findById i (after_save now db rb any c)
              = complete_only rb now c <$> Transaction.findById i db)
      as Hfind.
    { intros i. apply findById_map; [|apply complete_only_id].
      by apply after_save_transactions. }
    assert (forall t, t ∈ transactions db -> t <> c ->
              Transaction.findById (_id t) (after_save now db rb any c)
              = Some t) as Hothers.
    { intros t Ht Hne.
      rewrite Hfind, (findById_elem db t); [|apply Hwf|done].
      simpl. unfold complete_only. rewrite bool_decide_eq_false_2; [done|].
      intros Heq. apply Hne. by eapply same_id_same_doc. }
    split; [by apply elem_of_List_filter|]. split.
    { intros t [Ht Hq]%elem_of_List_filter.
      destruct (proj1 (largest_then_newest_first c t) (Hmin t Ht Hq)); lia. }
    split.
    { unfold status_of. rewrite Hfind, (findById_elem db c); [|apply Hwf|done].
      simpl. unfold complete_only. by rewrite bool_decide_eq_true_2. }
    split.
    { unfold User.findById in *.
      rewrite (after_save_users now db rb any c Hc), Hcu, lookup_alter_eq,
        Husr.
      done. }
    split.
    { intros u' Hne. unfold User.findById.
      rewrite (after_save_users now db rb any c Hc), Hcu.
      by apply lookup_alter_ne. }
    split.
    { intros t Ht Hnp. apply Hothers; [done|].
      intros ->. apply Hnp. by apply elem_of_List_filter. }
    intros _ t [Ht _]%elem_of_List_filter Hne. by apply Hothers.
Qed.

Lemma rejection_after_save_is_not_rolled_back_witness :
  (pixWebhook enumeration_rejected 1000 paid_35 db_500_35).1
    = PersistenceFailure /\
  exists c,
    c ∈ pending_of 7 db_500_35 /\
    status_of (_id c) (pixWebhook enumeration_rejected 1000 paid_35 db_500_35).2
      = Some COMPLETED /\
    balance <$> User.findById 7
                  (pixWebhook enumeration_rejected 1000 paid_35 db_500_35).2
      = Some (10 + amount c) /\
    forall t, t ∈ pending_of 7 db_500_35 -> t <> c ->
      Transaction.findById (_id t)
        (pixWebhook enumeration_rejected 1000 paid_35 db_500_35).2
      = Some t.
Proof.
  destruct (proj2 (rejection_after_save_is_not_rolled_back
                     enumeration_rejected 1000 paid_35
                     (JObj [("status", JStr "PAID"); ("amount", JNum 35)])
                     db_500_35 7 (mkUser "ana" "ana@example.com" 10)
                     ltac:(solve_wf_db) eq_refl eq_refl eq_refl eq_refl)
              eq_refl eq_refl eq_refl eq_refl (or_introl eq_refl))
    as (Hresp & c & Hc & _ & Hdone & Hbal & _ & _ & Hsib).
  split; [exact Hresp|]. exists c.
  split; [exact Hc|]. split; [exact Hdone|]. split; [exact Hbal|].
  exact (Hsib eq_refl).
Defined.

(** C3, the state the atomicity requirement rules out, reached: the store
    rejects the cancellation, the handler answers 500, and the deposit of
    500 is COMPLETED and credited while the deposit of 35 is still
    PENDING. *)
Lemma partial_reconciliation_observable :
  let r := pixWebhook cancel_rejected 1000 paid_35 db_500_35 in
  r.1 = PersistenceFailure /\
  map status (transactions db_500_35) = [PENDING; PENDING] /\
  map status (transactions r.2) = [COMPLETED; PENDING] /\
  status_of 0 r.2 = Some COMPLETED /\ status_of 1 r.2 = Some PENDING /\
  balance <$> User.findById 7 db_500_35 = Some 10 /\
  balance <$> User.findById 7 r.2 = Some 510.
Proof. by vm_compute. Qed.

(** ** Repeated deliveries *)



(** When the record of the owner is missing, both deliveries are
    answered with UserNotFound and neither changes anything. *)
Example second_delivery_unknown_user :
  let first := pixWebhook no_faults 1000 paid_35 db_orphan in
  let second := pixWebhook no_faults 2000 paid_35 first.2 in
  first.1 = UserNotFound /\ second.1 = UserNotFound /\
  transactions second.2 = transactions db_orphan.
Proof. by vm_compute. Qed.


(** ** Settled transactions across the operations *)

Lemma keeps_settled_refl db : wf_db db -> keeps_settled db db.
Proof. by split. Qed.

(** Rewriting in place the documents that are PENDING keeps the settled. *)
Lemma keeps_settled_map f db db' :
  wf_db db ->
  transactions db' = map f (transactions db) ->
  nextId db' = nextId db ->
  (forall t, _id (f t) = _id t) ->
  (forall t, t ∈ transactions db -> status t <> PENDING -> f t = t) ->
  keeps_settled db db'.
Proof.
  intros [Hnd Hlt] Htx Hnext Hid Hfix. split; [split|].
  - by rewrite Htx, map_id_map.
  - rewrite Htx, Hnext. intros t' (t & -> & Ht)%elem_of_map_inv.
    rewrite Hid. by apply Hlt.
  - intros i t Hfind Hst. rewrite (findById_map f i db db' Htx Hid), Hfind.
    simpl. f_equal. apply Hfix; [|done].
    by apply findById_Some in Hfind as [? _].
Qed.

(** Appending a document with a fresh id keeps the settled. *)
Lemma keeps_settled_create db user ty a s pm ref now :
  wf_db db ->
  keeps_settled db (Transaction.create user ty a s pm ref now db).2.
Proof.
  intros [Hnd Hlt]. split; [split|]; simpl.
  - rewrite map_app. apply NoDup_app. split; [done|]. split.
    + intros i Hi [->|Hnil%elem_of_nil]%elem_of_cons; [|done].
      apply list_elem_of_In, in_map_iff in Hi as (t & Hid & Ht).
      apply list_elem_of_In, Hlt in Ht. simpl in Hid. lia.
    + apply NoDup_singleton.
  - intros t [Ht|Ht]%elem_of_app.
    + apply Hlt in Ht. lia.
    + apply elem_of_cons in Ht as [->|Ht%elem_of_nil]; [simpl; lia|done].
  - intros i t Hfind _. unfold Transaction.findById in *. simpl.
    rewrite List.filter_app.
    destruct (List.filter _ (transactions db)); [done|].
    exact Hfind.
Qed.

Lemma pixWebhook_keeps_settled fails now req_body db :
  wf_db db -> keeps_settled db (pixWebhook fails now req_body db).2.
Proof.
  intros Hwf. webhook_cases; try by apply keeps_settled_refl.
  - match goal with
    | Hc : Transaction.findOne (pending_pix_deposit_of _) _ _ = Some ?c |- _ =>
        destruct (candidate_pending _ _ _ Hc) as (Hin & _ & _ & Hst & _);
        apply (keeps_settled_map (complete_only rb now c)); try done;
        [ by apply after_save_transactions
        | apply complete_only_id
        | intros t Ht Hne; unfold complete_only;
          rewrite bool_decide_eq_false_2; [done|];
          intros Heq;
          rewrite (same_id_same_doc db t c Hwf Ht Hin Heq) in Hne; done ]
    end.
  - match goal with
    | Hc : Transaction.findOne (pending_pix_deposit_of _) _ _ = Some ?c |- _ =>
        destruct (candidate_pending _ _ _ Hc) as (Hin & _ & _ & Hst & _);
        apply (keeps_settled_map (resolve rb now c)); try done;
        [ by apply after_cancel_transactions
        | unfold after_cancel; by case_bool_decide
        | apply resolve_id
        | intros t Ht Hne; unfold resolve;
          rewrite bool_decide_eq_false_2;
          [ destruct (matches _ t) eqn:Hm; [|done];
            apply matches_pending_of in Hm as [_ Hm];
            apply matches_pending in Hm as (_ & Hm & _); done
          | intros Heq;
            rewrite (same_id_same_doc db t c Hwf Ht Hin Heq) in Hne; done ] ]
    end.
Qed.

Lemma keeps_settled_trans db1 db2 db3 :
  keeps_settled db1 db2 -> keeps_settled db2 db3 -> keeps_settled db1 db3.
Proof. intros [_ H12] [Hwf H23]. split; [done|]. auto. Qed.

(** Issuing a deposit writes at most the new PENDING document. *)
Lemma generatePixQrCode_keeps_settled fails now qr a u db :
  wf_db db -> keeps_settled db (generatePixQrCode fails now qr a u db).2.
Proof.
  intros Hwf.
  unfold generatePixQrCode, try_catch, generatePixQrCode_body, mbind,
    Handler_bind, js, await, query, respond, mret, Handler_ret.
  destruct ((a =? 0) || (a <=? 0)); [by apply keeps_settled_refl|].
  destruct (a <? 35); [by apply keeps_settled_refl|].
  destruct (fails CredentialFindOne); [by apply keeps_settled_refl|].
  destruct (head _) as [cred|]; [|by apply keeps_settled_refl].
  destruct (fails TransactionCreate); [by apply keeps_settled_refl|].
  pose proof (keeps_settled_create db u DEPOSIT a PENDING PIX
                ("PIX_" +:+ pretty now +:+ "_" +:+ pretty u) now Hwf) as Hk.
  destruct (Transaction.create _ _ _ _ _ _ _ db) as [doc db'].
  by destruct (qr _ _ _ _).
Qed.

(** The reporters only read. *)
Lemma checkPixStatus_reads fails external_id db :
  (checkPixStatus fails external_id db).2 = db.
Proof.
  unfold checkPixStatus, try_catch, checkPixStatus_body, mbind,
    Handler_bind, await, query, respond, mret, Handler_ret.
  destruct (fails StatusFindOne); [done|].
  by destruct (Transaction.findOne _ _ db).
Qed.

Lemma getSpecialLogicHistory_reads fails rt page limit db :
  (getSpecialLogicHistory fails rt page limit db).2 = db.
Proof.
  unfold getSpecialLogicHistory, try_catch, getSpecialLogicHistory_body,
    mbind, Handler_bind, await_checked, js, await, query, respond, mret,
    Handler_ret.
  destruct (fails HistoryFind); [done|].
  destruct (history_docs _ _ _ _); [|done].
  cbn [fmap option_fmap option_map].
  destruct (fails HistoryCount); [done|].
  by destruct (mapM _ _).
Qed.

Lemma getSpecialLogicStats_reads fails today thisWeek thisMonth db :
  (getSpecialLogicStats fails today thisWeek thisMonth db).2 = db.
Proof.
  unfold getSpecialLogicStats, try_catch, getSpecialLogicStats_body,
    mbind, Handler_bind, await, query, respond, mret, Handler_ret.
  destruct (fails StatsTotal); [done|].
  destruct (fails StatsToday); [done|].
  destruct (fails StatsWeek); [done|].
  destruct (fails StatsMonth); [done|].
  destruct (fails StatsAggregate); [done|].
  by destruct (fails StatsPending).
Qed.

Lemma handle_keeps_settled e r db :
  wf_db db -> keeps_settled db (handle e r db).2.
Proof.
  intros Hwf. destruct r; simpl.
  - by apply generatePixQrCode_keeps_settled.
  - by apply pixWebhook_keeps_settled.
  - rewrite checkPixStatus_reads. by apply keeps_settled_refl.
  - rewrite getSpecialLogicHistory_reads. by apply keeps_settled_refl.
  - rewrite getSpecialLogicStats_reads. by apply keeps_settled_refl.
Qed.

Lemma run_trace_keeps_settled trace db :
  wf_db db -> keeps_settled db (run_trace trace db).
Proof.
  revert db. induction trace as [|[e r] rest IH]; intros db Hwf; simpl.
  - by apply keeps_settled_refl.
  - pose proof (handle_keeps_settled e r db Hwf) as Hstep.
    eapply keeps_settled_trans; [exact Hstep|]. apply IH, Hstep.
Qed.

(** ** Handlers in flight *)

(** Turns given one right after the other are a part of the whole run. *)
Lemma turns_run_task on_error n t db :
  run_task on_error (turns n (t, db)).1 (turns n (t, db)).2
  = run_task on_error t db.
Proof.
  revert t db. induction n as [|n IH]; intros t db; [done|].
  cbn [turns]. unfold turn at 1 2. cbn [fst snd].
  destruct t as [r| |A rejects call resume]; [apply IH..|].
  destruct rejects; [by rewrite IH|].
  cbn [run_task]. destruct (call db) as [a db']. apply IH.
Qed.

(** The handler taken [await] by [await] and given all its turns with
    nothing in between is [pixWebhook]. *)
Lemma pixWebhook_task_run fails now req_body db :
  run_task PersistenceFailure (pixWebhook_task fails now req_body) db
  = pixWebhook fails now req_body db.
Proof.
  unfold pixWebhook, try_catch, pixWebhook_body, pixWebhook_task, mbind,
    Handler_bind, js, await, query, command, respond, mret, Handler_ret.
  destruct (destructure req_body "requestBody") as [rb|]; [|done].
  destruct (invalid_payload rb); [done|]. cbn [run_task].
  destruct (fails FindAnyPending); [done|].
  destruct (Transaction.findOne pending_pix_deposit _ db) as [any|];
    [|done].
  cbn [run_task]. destruct (fails FindLargestPending); [done|].
  destruct (Transaction.findOne (pending_pix_deposit_of _) _ db) as [c|];
    [|done].
  cbn [run_task]. destruct (fails UserFindById); [done|].
  destruct (User.findById (userId c) db) as [usr|]; [|done].
  cbn [run_task]. destruct (fails SaveCompleted); [done|].
  destruct (fails FindOtherPending); [done|].
  case_bool_decide; [|done].
  cbn [run_task]. by destruct (fails CancelOthers).
Qed.

(** C9, as the code has it.  COMPLETED and CANCELLED are terminal as
    long as the requests are served one after the other.  Along any such
    sequence of requests (deposits issued, payment confirmations,
    status, history and statistics reports), with any store faults, a
    transaction that is COMPLETED or CANCELLED stays in the store as the
    same document; hence a transaction whose status has changed was
    PENDING before. *)
Theorem settled_statuses_are_terminal trace db :
  wf_db db ->
  (forall i t,
     Transaction.findById i db = Some t ->
     status t = COMPLETED \/ status t = CANCELLED ->
     Transaction.findById i (run_trace trace db) = Some t) /\
  (forall i s s',
     status_of i db = Some s ->
     status_of i (run_trace trace db) = Some s' ->
     s' <> s -> s = PENDING).
Proof.
  intros Hwf. destruct (run_trace_keeps_settled trace db Hwf) as [_ Hkeep].
  split.
  - intros i t Hfind Hst. apply Hkeep; [done|].
    destruct Hst as [-> | ->]; discriminate.
  - unfold status_of. intros i s s' Hs Hs' Hne.
    destruct (Transaction.findById i db) as [t|] eqn:Hfind; [|done].
    injection Hs as <-.
    destruct (decide (status t = PENDING)) as [|Hset]; [done|].
    rewrite (Hkeep i t Hfind Hset) in Hs'. simpl in Hs'. congruence.
Qed.

(** A deposit of 60 is issued for user 8 and a payment is confirmed,
    which completes it and cancels the deposit of 40 the user had
    pending: the two deposits of user 7, settled before, are untouched. *)
Lemma settled_statuses_are_terminal_witness :
  let e := {| env_fails := no_faults; env_now := 1000;
              env_qr := qr_ok; env_rt := scenario_runtime |} in
  let trace := [(e, IssueDeposit 60 8); (e, PaymentConfirmation paid_35);
                (e, GetStats 0 0 0)] in
  (status_of 2 (run_trace trace db_settled) = Some CANCELLED /\
   status_of 3 (run_trace trace db_settled) = Some COMPLETED) /\
  (forall i t,
     Transaction.findById i db_settled = Some t ->
     status t = COMPLETED \/ status t = CANCELLED ->
     Transaction.findById i (run_trace trace db_settled) = Some t) /\
  (forall i s s',
     status_of i db_settled = Some s ->
     status_of i (run_trace trace db_settled) = Some s' ->
     s' <> s -> s = PENDING).
Proof.
  intros e trace. split; [by vm_compute|].
  apply (settled_statuses_are_terminal trace db_settled).
  solve_wf_db.
Defined.

(** C9, a settled status that changes.  A confirmation arrives while
    user 7 has one deposit pending, of 500, and reads it as its
    candidate (lines 134 and 153); it is suspended at the [await] of
    line 174.  Meanwhile a deposit of 600 is issued for the user and a
    second confirmation is served: it completes the deposit of 600 and
    cancels the one of 500.  The first handler then gets its remaining
    turns: its [save()] of line 200 writes the document it holds, by
    [_id] and whatever the stored status, and the deposit of 500 goes
    from CANCELLED to COMPLETED.  (The clock of the first handler, read
    at line 196 and by the save, shows 1300.) *)
Lemma stale_save_completes_cancelled_deposit :
  let first := turns 2 (pixWebhook_task no_faults 1300 paid_35, db_race) in
  let issued := (generatePixQrCode no_faults 1100 qr_ok 600 7 first.2).2 in
  let second := (pixWebhook no_faults 1200 paid_35 issued).2 in
  let final := (run_task PersistenceFailure first.1 second).2 in
  wf_db db_race /\
  suspended first.1 = true /\
  first.2 = db_race /\
  status_of 0 issued = Some PENDING /\
  status_of 0 second = Some CANCELLED /\
  status_of 1 second = Some COMPLETED /\
  status_of 0 final = Some COMPLETED.
Proof.
  intros first issued second final.
  split; [solve_wf_db|]. by vm_compute.
Qed.

(** * Further properties of the controller *)

(** ** Issuing a deposit *)

Ltac unfold_issue :=
  unfold generatePixQrCode, try_catch, generatePixQrCode_body, mbind,
    Handler_bind, js, await, query, respond, mret, Handler_ret.

(** X1.  A requested amount below 35 is refused with status 400 before
    anything is read or written: with the message of an invalid value
    when it is zero or negative, with the message of the minimum
    otherwise. *)
Theorem deposit_below_minimum_rejected fails now qr a u db :
  a < 35 ->
  generatePixQrCode fails now qr a u db
  = (Failure 400
       (if a <=? 0 then "Valor inválido"
        else "O valor mínimo para depósito é R$ 35,00"),
     db).
Proof.
  intros Ha. unfold_issue.
  destruct (Z.leb_spec a 0) as [Hle|Hgt].
  - by rewrite orb_true_r.
  - replace (a =? 0) with false by (symmetry; apply Z.eqb_neq; lia).
    simpl. by replace (a <? 35) with true by (symmetry; apply Z.ltb_lt; lia).
Qed.

Lemma deposit_below_minimum_rejected_witness :
  generatePixQrCode no_faults 1000 qr_ok 34 7 db_ready
  = (Failure 400 "O valor mínimo para depósito é R$ 35,00", db_ready).
Proof.
  apply (deposit_below_minimum_rejected no_faults 1000 qr_ok 34 7 db_ready).
  lia.
Defined.

(** X2.  With an acceptable amount but no active PIX credential in the
    store, the answer is status 500 and no transaction is created. *)
Theorem deposit_without_credential_rejected fails now qr a u db :
  35 <= a ->
  fails CredentialFindOne = false ->
  (forall c, c ∈ pixCredentials db -> isActive c = false) ->
  generatePixQrCode fails now qr a u db
  = (Failure 500 "Credenciais PIX não configuradas", db).
Proof.
  intros Ha Hf Hnone. unfold_issue.
  replace ((a =? 0) || (a <=? 0)) with false.
  2:{ symmetry. apply orb_false_iff. split; [apply Z.eqb_neq|apply Z.leb_gt];
      lia. }
  replace (a <? 35) with false by (symmetry; apply Z.ltb_ge; lia).
  rewrite Hf.
  destruct (head (List.filter isActive (pixCredentials db))) as [c|] eqn:Hc;
    [|done].
  apply head_Some_elem_of, elem_of_List_filter in Hc as [Hin Hact].
  rewrite (Hnone c Hin) in Hact. done.
Qed.

Lemma deposit_without_credential_rejected_witness :
  generatePixQrCode no_faults 1000 qr_ok 50 7 db_500_35
  = (Failure 500 "Credenciais PIX não configuradas", db_500_35).
Proof.
  apply (deposit_without_credential_rejected no_faults 1000 qr_ok 50 7
           db_500_35).
  - lia.
  - reflexivity.
  - intros c Hc. by apply elem_of_nil in Hc.
Defined.

(** The effect of issuing a deposit on the store, for every request. *)
Lemma generatePixQrCode_effect fails now qr a u db :
  users (generatePixQrCode fails now qr a u db).2 = users db /\
  pixCredentials (generatePixQrCode fails now qr a u db).2
    = pixCredentials db /\
  ((generatePixQrCode fails now qr a u db).2 = db \/
   exists doc,
     transactions (generatePixQrCode fails now qr a u db).2
       = transactions db ++ [doc] /\
     nextId (generatePixQrCode fails now qr a u db).2 = S (nextId db) /\
     _id doc = nextId db /\ userId doc = u /\ pending_pix doc /\
     amount doc = a /\ 35 <= a /\
     externalReference doc = external_id_at now u /\
     metadata doc = [] /\ createdAt doc = now).
Proof.
  unfold_issue.
  destruct ((a =? 0) || (a <=? 0)); [by auto|].
  destruct (Z.ltb_spec a 35) as [Hlt|Hge]; [by auto|].
  destruct (fails CredentialFindOne); [by auto|].
  destruct (head _) as [cred|]; [|by auto].
  destruct (fails TransactionCreate); [by auto|].
  unfold Transaction.create.
  destruct (qr _ _ _ _); cbn [fst snd users pixCredentials];
    (split; [done|]; split; [done|]; right; eexists; by repeat split).
Qed.

(** X3.  Whatever the request and the faults, issuing a deposit never
    touches a user, a credential or an existing transaction: the store is
    either unchanged or has one more transaction at its end, a PENDING
    PIX deposit of the requesting user with the requested amount, which
    is then at least 35. *)
Theorem issuing_only_appends fails now qr a u db :
  users (generatePixQrCode fails now qr a u db).2 = users db /\
  pixCredentials (generatePixQrCode fails now qr a u db).2
    = pixCredentials db /\
  ((generatePixQrCode fails now qr a u db).2 = db \/
   exists doc,
     transactions (generatePixQrCode fails now qr a u db).2
       = transactions db ++ [doc] /\
     nextId (generatePixQrCode fails now qr a u db).2 = S (nextId db) /\
     _id doc = nextId db /\ userId doc = u /\ pending_pix doc /\
     amount doc = a /\ 35 <= a /\
     externalReference doc = external_id_at now u /\
     metadata doc = [] /\ createdAt doc = now).
Proof. apply generatePixQrCode_effect. Qed.

(** X4.  When the PIX service throws after the transaction was created,
    the caller gets status 500 and no QR code, but the PENDING deposit
    stays in the store, where the first search of the webhook finds a
    deposit to work on. *)
Theorem failed_qr_leaves_pending_deposit fails now qr a u db cred :
  35 <= a ->
  fails CredentialFindOne = false ->
  fails TransactionCreate = false ->
  head (List.filter isActive (pixCredentials db)) = Some cred ->
  qr a "Depósito via PIX" (external_id_at now u) cred = None ->
  (generatePixQrCode fails now qr a u db).1
    = Failure 500 "Erro ao gerar QR Code PIX" /\
  exists doc,
    transactions (generatePixQrCode fails now qr a u db).2
      = transactions db ++ [doc] /\
    pending_pix doc /\ userId doc = u /\ amount doc = a /\
    is_Some (Transaction.findOne pending_pix_deposit
               [(createdAt, Descending)]
               (generatePixQrCode fails now qr a u db).2).
Proof.
  intros Ha Hf1 Hf2 Hcred Hqr. unfold_issue.
  replace ((a =? 0) || (a <=? 0)) with false.
  2:{ symmetry. apply orb_false_iff. split; [apply Z.eqb_neq|apply Z.leb_gt];
      lia. }
  replace (a <? 35) with false by (symmetry; apply Z.ltb_ge; lia).
  rewrite Hf1, Hcred, Hf2. unfold Transaction.create.
  fold (external_id_at now u). rewrite Hqr. cbn [fst snd].
  split; [done|]. eexists. split; [reflexivity|].
  repeat split.
  eapply findOne_is_Some.
  - cbn [transactions]. apply elem_of_app. right. by apply elem_of_cons; left.
  - by apply matches_pending.
Qed.

Lemma failed_qr_leaves_pending_deposit_witness :
  (generatePixQrCode no_faults 1000 qr_down 50 7 db_ready).1
    = Failure 500 "Erro ao gerar QR Code PIX" /\
  exists doc,
    transactions (generatePixQrCode no_faults 1000 qr_down 50 7 db_ready).2
      = transactions db_ready ++ [doc] /\
    pending_pix doc /\ userId doc = 7%nat /\ amount doc = 50 /\
    is_Some (Transaction.findOne pending_pix_deposit
               [(createdAt, Descending)]
               (generatePixQrCode no_faults 1000 qr_down 50 7 db_ready).2).
Proof.
  apply (failed_qr_leaves_pending_deposit no_faults 1000 qr_down 50 7
           db_ready (mkCredential "live" "s1" true)).
  - lia.
  - reflexivity.
  - reflexivity.
  - reflexivity.
  - reflexivity.
Defined.

(** ** Looking a deposit up *)

Lemma matches_by_externalReference ref t :
  matches (by_externalReference ref) t = true <-> externalReference t = ref.
Proof.
  unfold matches, by_externalReference, holds; cbn -[String.eqb].
  by rewrite !andb_true_r, String.eqb_eq.
Qed.

Lemma filter_none {A} (f : A -> bool) (l : list A) :
  (forall x, x ∈ l -> f x = false) -> List.filter f l = [].
Proof.
  induction l as [|x l IH]; simpl; intros Hno; [done|].
  rewrite (Hno x) by (by apply elem_of_cons; left).
  apply IH. intros y Hy. apply Hno. by apply elem_of_cons; right.
Qed.

Ltac unfold_status :=
  unfold checkPixStatus, try_catch, checkPixStatus_body, mbind,
    Handler_bind, await, query, respond, mret, Handler_ret.

(** X5.  The status handler answers 404 exactly when no transaction
    carries the requested external id; otherwise it answers with a
    transaction of the store that carries it.  (Whose transaction it is
    plays no part.) *)
Theorem status_lookup fails external_id db :
  fails StatusFindOne = false ->
  ((forall t, t ∈ transactions db -> externalReference t <> external_id) ->
   checkPixStatus fails external_id db
   = (Failure 404 "Transação não encontrada", db)) /\
  (forall t0, t0 ∈ transactions db -> externalReference t0 = external_id ->
   exists t,
     checkPixStatus fails external_id db = (StatusFound t, db) /\
     t ∈ transactions db /\ externalReference t = external_id).
Proof.
  intros Hf. split.
  - intros Hnone. unfold_status. rewrite Hf.
    destruct (Transaction.findOne _ _ db) as [t|] eqn:Ht; [|done].
    apply findOne_Some in Ht as (Hin & Hq & _).
    apply matches_by_externalReference in Hq. by destruct (Hnone t Hin).
  - intros t0 Hin0 Href0.
    destruct (findOne_is_Some (by_externalReference external_id) [] db t0)
      as [t Ht]; [done|by apply matches_by_externalReference|].
    exists t. unfold_status. rewrite Hf, Ht. split; [done|].
    apply findOne_Some in Ht as (Hin & Hq & _).
    by apply matches_by_externalReference in Hq.
Qed.

Lemma status_lookup_witness :
  ((forall t, t ∈ transactions db_500_35 ->
      externalReference t <> "PIX_200_7") ->
   checkPixStatus no_faults "PIX_200_7" db_500_35
   = (Failure 404 "Transação não encontrada", db_500_35)) /\
  (forall t0, t0 ∈ transactions db_500_35 ->
   externalReference t0 = "PIX_200_7" ->
   exists t,
     checkPixStatus no_faults "PIX_200_7" db_500_35
       = (StatusFound t, db_500_35) /\
     t ∈ transactions db_500_35 /\ externalReference t = "PIX_200_7").
Proof.
  apply (status_lookup no_faults "PIX_200_7" db_500_35). reflexivity.
Defined.

(** X6.  Round trip.  After a deposit was issued with a QR code, asking
    for the status of the external id that was handed out answers with
    that very transaction: PENDING, of the requested amount, owned by the
    requester, provided no earlier transaction carries the same external
    id (the lookup takes the first one that does). *)
Theorem issued_deposit_is_found fails fails' now qr a u db d :
  (generatePixQrCode fails now qr a u db).1 = QrCreated d ->
  (forall t, t ∈ transactions db ->
             externalReference t <> qd_external_id d) ->
  fails' StatusFindOne = false ->
  exists t,
    checkPixStatus fails' (qd_external_id d)
      (generatePixQrCode fails now qr a u db).2
    = (StatusFound t, (generatePixQrCode fails now qr a u db).2) /\
    _id t = qd_transaction_id d /\ status t = PENDING /\
    amount t = a /\ qd_amount d = a /\ userId t = u /\
    externalReference t = external_id_at now u.
Proof.
  unfold_issue.
  destruct ((a =? 0) || (a <=? 0)); [done|].
  destruct (a <? 35); [done|].
  destruct (fails CredentialFindOne); [done|].
  destruct (head _) as [cred|]; [|done].
  destruct (fails TransactionCreate); [done|].
  unfold Transaction.create.
  destruct (qr _ _ _ _) as [code|]; [|done]. cbn [fst snd].
  intros [= <-] Hfresh Hf. cbn [qd_external_id] in *.
  eexists. unfold_status. rewrite Hf.
  unfold Transaction.findOne, Transaction.find. cbn [transactions].
  rewrite sort_docs_unsorted, List.filter_app, filter_none.
  2:{ intros t Ht. apply not_true_is_false.
      intros Hq%matches_by_externalReference. by destruct (Hfresh t Ht). }
  cbn [app List.filter].
  replace (matches (by_externalReference _) _) with true.
  2:{ symmetry. by apply matches_by_externalReference. }
  cbn [head]. by repeat split.
Qed.

Lemma issued_deposit_is_found_witness :
  exists t,
    checkPixStatus no_faults "PIX_1000_7"
      (generatePixQrCode no_faults 1000 qr_ok 50 7 db_ready).2
    = (StatusFound t, (generatePixQrCode no_faults 1000 qr_ok 50 7 db_ready).2)
    /\ _id t = 0%nat /\ status t = PENDING /\
    amount t = 50 /\ 50 = 50 /\ userId t = 7%nat /\
    externalReference t = external_id_at 1000 7.
Proof.
  apply (issued_deposit_is_found no_faults no_faults 1000 qr_ok 50 7 db_ready
           {| qd_transaction_id := 0; qd_external_id := "PIX_1000_7";
              qd_qr_code := "00020126580014br.gov.bcb.pix";
              qd_amount := 50 |}).
  - reflexivity.
  - intros t Ht. by apply elem_of_nil in Ht.
  - reflexivity.
Defined.

(** ** What a confirmation leaves alone *)

(** Every run of the webhook rewrites the transactions in place, with
    the identity, with the completion of a candidate or with a whole
    reconciliation. *)
Lemma pixWebhook_rewrites fails now req_body db :
  exists f,
    transactions (pixWebhook fails now req_body db).2
      = map f (transactions db) /\
    nextId (pixWebhook fails now req_body db).2 = nextId db /\
    pixCredentials (pixWebhook fails now req_body db).2
      = pixCredentials db /\
    ((forall t, f t = t) \/
     exists rb c,
       c ∈ transactions db /\ pending_pix c /\
       identified_user db = Some (userId c) /\
       (f = complete_only rb now c \/ f = resolve rb now c)).
Proof.
  pose proof (pixWebhook_run fails now req_body db) as Hrun.
  destruct (pixWebhook fails now req_body db) as [r after].
  cbn [fst snd] in *.
  inversion Hrun
    as [ | | | | |
       | rb any c usr Hrb Hok Hany Hc Husr F4 Hlate
       | rb any c usr Hrb Hok Hany Hc Husr ]; subst;
    try (exists (fun t => t); rewrite map_id; by auto).
  - destruct (candidate_pending db any c Hc) as (Hin & Hu & Hp).
    exists (complete_only rb now c).
    split; [by apply after_save_transactions|].
    split; [done|]. split; [done|]. right. exists rb, c.
    split; [done|]. split; [done|].
    split; [unfold identified_user; by rewrite Hany, Hu|by left].
  - destruct (candidate_pending db any c Hc) as (Hin & Hu & Hp).
    exists (resolve rb now c).
    split; [by apply after_cancel_transactions|].
    split; [unfold after_cancel; by case_bool_decide|].
    split; [unfold after_cancel; by case_bool_decide|].
    right. exists rb, c.
    split; [done|]. split; [done|].
    split; [unfold identified_user; by rewrite Hany, Hu|by right].
Qed.

(** X7.  Whatever the payload and the faults, a confirmation neither
    adds nor removes a transaction, and the transaction with a given id
    keeps its owner, type, amount, payment method, external id and
    creation time: only status, metadata and the update time are ever
    written. *)
Theorem webhook_keeps_transaction_data fails now req_body db :
  wf_db db ->
  map _id (transactions (pixWebhook fails now req_body db).2)
    = map _id (transactions db) /\
  nextId (pixWebhook fails now req_body db).2 = nextId db /\
  forall i t,
    Transaction.findById i db = Some t ->
    exists t',
      Transaction.findById i (pixWebhook fails now req_body db).2 = Some t' /\
      same_data t t'.
Proof.
  intros Hwf.
  destruct (pixWebhook_rewrites fails now req_body db)
    as (f & Htx & Hnext & _ & Hf).
  assert (forall t, t ∈ transactions db -> same_data t (f t)) as Hsame.
  { intros t Ht. destruct Hf as [Hid|(rb & c & Hc & _ & _ & [-> | ->])].
    - by rewrite Hid.
    - unfold complete_only. case_bool_decide as Heq; [|done].
      by rewrite (same_id_same_doc db t c Hwf Ht Hc Heq).
    - unfold resolve. case_bool_decide as Heq.
      + by rewrite (same_id_same_doc db t c Hwf Ht Hc Heq).
      + by destruct (matches _ t). }
  assert (forall t, _id (f t) = _id t) as Hid.
  { intros t. destruct Hf as [Hid|(rb & c & _ & _ & _ & [-> | ->])].
    - by rewrite Hid.
    - apply complete_only_id.
    - apply resolve_id. }
  split; [by rewrite Htx, map_id_map|]. split; [done|].
  intros i t Hfind. exists (f t).
  rewrite (findById_map f i db _ Htx Hid), Hfind. split; [done|].
  apply Hsame. by apply findById_Some in Hfind as [? _].
Qed.

Lemma webhook_keeps_transaction_data_witness :
  map _id (transactions (pixWebhook cancel_rejected 1000 paid_35 db_tie).2)
    = map _id (transactions db_tie) /\
  nextId (pixWebhook cancel_rejected 1000 paid_35 db_tie).2 = nextId db_tie /\
  forall i t,
    Transaction.findById i db_tie = Some t ->
    exists t',
      Transaction.findById i (pixWebhook cancel_rejected 1000 paid_35 db_tie).2
        = Some t' /\
      same_data t t'.
Proof.
  apply (webhook_keeps_transaction_data cancel_rejected 1000 paid_35 db_tie).
  solve_wf_db.
Defined.

(** X8.  A confirmation never touches a transaction of a user other
    than the one it identifies (the owner of the newest PENDING PIX
    deposit): such a transaction is found unchanged afterwards, whatever
    the payload and the faults. *)
Theorem webhook_leaves_other_users_alone fails now req_body db t :
  wf_db db ->
  t ∈ transactions db ->
  identified_user db <> Some (userId t) ->
  Transaction.findById (_id t) (pixWebhook fails now req_body db).2 = Some t.
Proof.
  intros Hwf Ht Hother.
  destruct (pixWebhook_rewrites fails now req_body db)
    as (f & Htx & _ & _ & Hf).
  assert (forall t, _id (f t) = _id t) as Hid.
  { intros t'. destruct Hf as [Hid|(rb & c & _ & _ & _ & [-> | ->])].
    - by rewrite Hid.
    - apply complete_only_id.
    - apply resolve_id. }
  rewrite (findById_map f _ db _ Htx Hid), (findById_elem db t);
    [|apply Hwf|done].
  simpl. f_equal.
  destruct Hf as [Hfix|(rb & c & Hc & _ & Hu & [-> | ->])]; [done| |].
  - unfold complete_only. case_bool_decide as Heq; [|done].
    rewrite (same_id_same_doc db t c Hwf Ht Hc Heq) in Hother. done.
  - unfold resolve. case_bool_decide as Heq.
    + rewrite (same_id_same_doc db t c Hwf Ht Hc Heq) in Hother. done.
    + destruct (matches _ t) eqn:Hm; [|done].
      apply matches_pending_of in Hm as [Hm _]. rewrite Hm in Hother. done.
Qed.

Lemma webhook_leaves_other_users_alone_witness :
  Transaction.findById 1 (pixWebhook no_faults 1000 paid_35 db_two_users).2
  = Some (pix_deposit 1 8 40 PENDING 150).
Proof.
  apply (webhook_leaves_other_users_alone no_faults 1000 paid_35 db_two_users
           (pix_deposit 1 8 40 PENDING 150)).
  - solve_wf_db.
  - apply elem_of_cons; right. apply elem_of_cons; by left.
  - vm_compute. discriminate.
Defined.

(** X9.  What is credited does not depend on what was paid: in
    fault-free runs on the same store, two success payloads, whatever
    amounts and fields they carry, lead to the same credited amount and
    to the same status of every transaction. *)
Theorem credit_ignores_paid_amount now1 now2 body1 body2 rb1 rb2 db :
  destructure body1 "requestBody" = Some rb1 -> paid rb1 ->
  destructure body2 "requestBody" = Some rb2 -> paid rb2 ->
  credited (pixWebhook no_faults now1 body1 db).1
    = credited (pixWebhook no_faults now2 body2 db).1 /\
  map status (transactions (pixWebhook no_faults now1 body1 db).2)
    = map status (transactions (pixWebhook no_faults now2 body2 db).2).
Proof.
  intros Hb1 Hp1 Hb2 Hp2.
  destruct (Transaction.findOne pending_pix_deposit
              [(createdAt, Descending)] db) as [any|] eqn:Hany.
  - destruct (pixWebhook_no_faults now1 body1 rb1 db any Hb1 Hp1 Hany)
      as (c & Hc & Hrun1).
    destruct (pixWebhook_no_faults now2 body2 rb2 db any Hb2 Hp2 Hany)
      as (c' & Hc' & Hrun2).
    assert (c' = c) as -> by congruence.
    destruct (User.findById (userId any) db).
    + rewrite Hrun1, Hrun2. cbn [fst snd credited success_data
                                 wd_totalCredited].
      split; [done|].
      rewrite !(after_cancel_transactions _ db _ any c Hc), !map_map.
      apply map_ext. intros t. unfold resolve.
      case_bool_decide; [done|]. by destruct (matches _ t).
    + by rewrite Hrun1, Hrun2.
  - assert (forall t, t ∈ transactions db -> ~ pending_pix t) as Hnone.
    { intros t Ht Hp%matches_pending.
      by rewrite (findOne_None _ _ _ Hany t Ht) in Hp. }
    by rewrite (pixWebhook_nothing_pending no_faults now1 body1 rb1 db),
      (pixWebhook_nothing_pending no_faults now2 body2 rb2 db).
Qed.

Lemma credit_ignores_paid_amount_witness :
  credited (pixWebhook no_faults 1000 paid_35 db_500_35).1
    = credited (pixWebhook no_faults 2000
                  (JObj [("requestBody",
                          JObj [("status", JStr "PAID");
                                ("amount", JNum 1)])]) db_500_35).1 /\
  map status (transactions (pixWebhook no_faults 1000 paid_35 db_500_35).2)
    = map status
        (transactions
           (pixWebhook no_faults 2000
              (JObj [("requestBody",
                      JObj [("status", JStr "PAID");
                            ("amount", JNum 1)])]) db_500_35).2).
Proof.
  apply (credit_ignores_paid_amount 1000 2000 paid_35 _
           (JObj [("status", JStr "PAID"); ("amount", JNum 35)])
           (JObj [("status", JStr "PAID"); ("amount", JNum 1)]) db_500_35);
    reflexivity.
Defined.

(** ** Sorted results *)

Section SortedResults.

Variable spec : SortSpec.

Lemma insert_sorted_perm x l : insert_sorted spec x l ≡ₚ x :: l.
Proof.
  induction l as [|y l IH]; simpl; [done|].
  destruct (order_of spec y x); [done| |done].
  rewrite IH. apply Permutation_swap.
Qed.

Lemma sort_docs_perm l : sort_docs spec l ≡ₚ l.
Proof.
  induction l as [|x l IH]; simpl; [done|].
  by rewrite insert_sorted_perm, IH.
Qed.

Lemma insert_sorted_sorted x s :
  StronglySorted (not_after spec) s ->
  StronglySorted (not_after spec) (insert_sorted spec x s).
Proof.
  induction s as [|y s IH]; simpl; intros Hs.
  - by repeat constructor.
  - inversion Hs as [|? ? Hs' Hall]; subst.
    assert (order_of spec y x <> Lt ->
            StronglySorted (not_after spec) (x :: y :: s)) as Hfront.
    { intros Hnlt.
      assert (not_after spec x y) as Hxy
        by (by destruct (not_after_total spec y x)).
      constructor; [done|]. constructor; [done|].
      eapply Forall_impl; [exact Hall|].
      intros z Hz. by apply not_after_trans with y. }
    destruct (order_of spec y x) eqn:Hord; [by apply Hfront| |by apply Hfront].
    constructor; [by apply IH|].
    apply Forall_forall. intros z [->|Hz]%insert_sorted_elem.
    + unfold not_after. by rewrite Hord.
    + by eapply Forall_forall in Hall.
Qed.

Lemma sort_docs_sorted l : StronglySorted (not_after spec) (sort_docs spec l).
Proof.
  induction l as [|x l IH]; simpl; [constructor|].
  by apply insert_sorted_sorted.
Qed.




End SortedResults.

(** ** The statistics *)

Lemma stats_no_faults today thisWeek thisMonth db :
  getSpecialLogicStats no_faults today thisWeek thisMonth db
  = (StatsReport
       (Transaction.countDocuments (special_logic_since None) db)
       (Transaction.countDocuments (special_logic_since (Some today)) db)
       (Transaction.countDocuments (special_logic_since (Some thisWeek)) db)
       (Transaction.countDocuments (special_logic_since (Some thisMonth)) db)
       (sum_amounts (Transaction.find (special_logic_since None) [] db))
       (Transaction.find pending_pix_deposit
          [(amount, Descending); (createdAt, Descending)] db),
     db).
Proof. reflexivity. Qed.

Lemma StronglySorted_weaken {A} (R R' : A -> A -> Prop) (l : list A) :
  (forall a b, R a b -> R' a b) -> StronglySorted R l -> StronglySorted R' l.
Proof.
  intros Himp. induction 1 as [|a l Hs IH Hall]; constructor; [done|].
  eapply Forall_impl; [exact Hall|]. auto.
Qed.

(** X10.  The pending list of the statistics holds exactly the PENDING
    PIX deposits of the store, each once, with larger amounts first and,
    among equal amounts, newer ones first. *)
Theorem stats_list_pending_largest_first today thisWeek thisMonth db :
  let r := getSpecialLogicStats no_faults today thisWeek thisMonth db in
  http_status r.1 = 200 /\ r.2 = db /\
  reported_pending r.1
    ≡ₚ List.filter (matches pending_pix_deposit) (transactions db) /\
  (forall t, t ∈ reported_pending r.1 <->
             t ∈ transactions db /\ pending_pix t) /\
  StronglySorted larger_or_newer (reported_pending r.1).
Proof.
  rewrite stats_no_faults. cbn [fst snd reported_pending http_status].
  unfold Transaction.find. split; [done|]. split; [done|].
  split; [apply sort_docs_perm|]. split.
  - intros t.
    by rewrite sort_docs_elem, elem_of_List_filter, matches_pending.
  - eapply StronglySorted_weaken; [|apply sort_docs_sorted].
    intros a b. apply largest_then_newest_first.
Qed.

Lemma matches_special_since d t :
  matches (special_logic_since (Some d)) t
  = matches (special_logic_since None) t && (d <=? createdAt t).
Proof.
  unfold matches, special_logic_since, holds; cbn -[obj_get Z.leb].
  by rewrite !andb_true_r.
Qed.

Lemma filter_length_le {A} (f g : A -> bool) (l : list A) :
  (forall x, f x = true -> g x = true) ->
  (length (List.filter f l) <= length (List.filter g l))%nat.
Proof.
  intros Himp. induction l as [|x l IH]; simpl; [done|].
  destruct (f x) eqn:Hf.
  - rewrite (Himp x Hf). simpl. lia.
  - destruct (g x); simpl; lia.
Qed.

Lemma count_since_le d d' db :
  d' <= d ->
  (Transaction.countDocuments (special_logic_since (Some d)) db
   <= Transaction.countDocuments (special_logic_since (Some d')) db)%nat.
Proof.
  intros Hle. apply filter_length_le. intros t.
  rewrite !matches_special_since, !andb_true_iff, !Z.leb_le.
  intros []. split; [done|lia].
Qed.

(** X11.  When the three window dates are ordered as the handler builds
    them (a month ago, a week ago, today at midnight), the counts of the
    statistics are ordered too: today's is at most the week's, the week's
    at most the month's, and the month's at most the total. *)
Theorem stats_window_counts today thisWeek thisMonth db :
  thisMonth <= thisWeek -> thisWeek <= today ->
  exists total todayCount weekCount monthCount s pending,
    getSpecialLogicStats no_faults today thisWeek thisMonth db
    = (StatsReport total todayCount weekCount monthCount s pending, db) /\
    (todayCount <= weekCount)%nat /\ (weekCount <= monthCount)%nat /\
    (monthCount <= total)%nat.
Proof.
  intros Hmw Hwt. rewrite stats_no_faults. do 6 eexists.
  split; [reflexivity|].
  split; [by apply count_since_le|]. split; [by apply count_since_le|].
  apply filter_length_le. intros t.
  rewrite matches_special_since, andb_true_iff. tauto.
Qed.

Lemma stats_window_counts_witness :
  exists total todayCount weekCount monthCount s pending,
    getSpecialLogicStats no_faults 900 300 0
      (pixWebhook no_faults 500 paid_35 db_500_35).2
    = (StatsReport total todayCount weekCount monthCount s pending,
       (pixWebhook no_faults 500 paid_35 db_500_35).2) /\
    (todayCount <= weekCount)%nat /\ (weekCount <= monthCount)%nat /\
    (monthCount <= total)%nat.
Proof.
  apply (stats_window_counts 900 300 0); lia.
Defined.





(** ** The history *)

Ltac unfold_history :=
  unfold getSpecialLogicHistory, try_catch, getSpecialLogicHistory_body,
    mbind, Handler_bind, await_checked, js, await, query, respond, mret,
    Handler_ret.




(** X13.  If a transaction of the requested page belongs to a user
    whose record no longer exists, the history answers 500 for the whole
    page, whatever the page and the limit were and however the runtime
    turns them into a slice. *)
Theorem history_fails_on_missing_owner fails rt page limit db docs t :
  fails HistoryFind = false ->
  fails HistoryCount = false ->
  history_docs rt page limit db = Some docs ->
  t ∈ docs ->
  User.findById (userId t) db = None ->
  getSpecialLogicHistory fails rt page limit db
  = (Failure 500 "Erro ao buscar histórico de lógica especial", db).
Proof.
  intros Hf1 Hf2 Hdocs Ht Hnone. unfold_history.
  rewrite Hf1, Hdocs. cbn [fmap option_fmap option_map]. rewrite Hf2.
  replace (mapM _ (populate db docs))
    with (@None (list (TransactionDoc * UserDoc))); [done|].
  symmetry. apply mapM_None_2, Exists_exists.
  exists (t, User.findById (userId t) db). split.
  - unfold populate. apply list_elem_of_In.
    apply (in_map (fun t => (t, User.findById (userId t) db))).
    by apply list_elem_of_In.
  - simpl. by rewrite Hnone.
Qed.

Lemma history_fails_on_missing_owner_witness :
  getSpecialLogicHistory no_faults scenario_runtime JUndefined JUndefined
    db_history
  = (Failure 500 "Erro ao buscar histórico de lógica especial", db_history).
Proof.
  apply (history_fails_on_missing_owner no_faults scenario_runtime
           JUndefined JUndefined db_history
           [ credited_deposit 2 7 35 300; credited_deposit 1 9 60 200;
             credited_deposit 0 7 500 100 ]
           (credited_deposit 1 9 60 200)).
  - reflexivity.
  - reflexivity.
  - reflexivity.
  - apply elem_of_cons; right. apply elem_of_cons; by left.
  - reflexivity.
Defined.






(** ** Confirmations as the reports see them *)

Lemma obj_get_set_ne k k' v o :
  k <> k' -> obj_get k (obj_set k' v o) = obj_get k o.
Proof.
  intros Hne. induction o as [|[k0 v0] o IH]; simpl.
  - by rewrite (proj2 (String.eqb_neq k k')).
  - destruct (String.eqb_spec k' k0) as [->|Hk0]; simpl.
    + by rewrite (proj2 (String.eqb_neq k k0)).
    + destruct (String.eqb k k0); [done|apply IH].
Qed.





(** ** Issuing and confirming *)

(** The same data after any run of the webhook, document by document. *)
Lemma pixWebhook_document_data fails now req_body db t' :
  wf_db db ->
  t' ∈ transactions (pixWebhook fails now req_body db).2 ->
  exists t, t ∈ transactions db /\ same_data t t'.
Proof.
  intros Hwf Ht'.
  destruct (pixWebhook_rewrites fails now req_body db)
    as (f & Htx & _ & _ & Hf).
  rewrite Htx in Ht'. apply elem_of_map_inv in Ht' as (t & -> & Ht).
  exists t. split; [done|].
  destruct Hf as [Hid|(rb & c & Hc & _ & _ & [-> | ->])].
  - by rewrite Hid.
  - unfold complete_only. case_bool_decide as Heq; [|done].
    by rewrite (same_id_same_doc db t c Hwf Ht Hc Heq).
  - unfold resolve. case_bool_decide as Heq.
    + by rewrite (same_id_same_doc db t c Hwf Ht Hc Heq).
    + by destruct (matches _ t).
Qed.

Lemma handle_above_minimum e r db :
  above_minimum db -> above_minimum (handle e r db).2.
Proof.
  intros [Hwf Hmin].
  split; [by destruct (handle_keeps_settled e r db Hwf)|].
  destruct r as [a u| | | |]; simpl.
  - destruct (generatePixQrCode_effect (env_fails e) (env_now e) (env_qr e)
                a u db)
      as (_ & _ & [-> | (doc & -> & _ & _ & _ & _ & Ha & Hge & _)]); [done|].
    intros t [Ht|Ht]%elem_of_app; [by apply Hmin|].
    apply elem_of_cons in Ht as [->|Ht%elem_of_nil]; [lia|done].
  - intros t' Ht'.
    destruct (pixWebhook_document_data _ _ _ db t' Hwf Ht')
      as (t & Ht & _ & _ & _ & Ha & _).
    rewrite Ha. by apply Hmin.
  - by rewrite checkPixStatus_reads.
  - by rewrite getSpecialLogicHistory_reads.
  - by rewrite getSpecialLogicStats_reads.
Qed.

Lemma run_trace_above_minimum trace db :
  above_minimum db -> above_minimum (run_trace trace db).
Proof.
  revert db. induction trace as [|[e r] rest IH]; intros db Hdb; [done|].
  simpl. by apply IH, handle_above_minimum.
Qed.

(** X16.  No amount under the minimum: starting from a store whose
    transactions all have an amount of at least 35 (the empty store, for
    one), after any sequence of requests, served one after the other with
    any faults, every transaction still has an amount of at least 35, and
    a confirmation that goes through then credits at least 35. *)
Theorem never_under_minimum trace db :
  wf_db db ->
  (forall t, t ∈ transactions db -> 35 <= amount t) ->
  (forall t, t ∈ transactions (run_trace trace db) -> 35 <= amount t) /\
  (forall fails now req_body a,
     credited (pixWebhook fails now req_body (run_trace trace db)).1 = Some a ->
     35 <= a).
Proof.
  intros Hwf Hmin.
  destruct (run_trace_above_minimum trace db) as [_ Hall]; [by split|].
  split; [done|].
  intros fails now req_body a.
  pose proof (pixWebhook_run fails now req_body (run_trace trace db)) as Hrun.
  destruct (pixWebhook fails now req_body (run_trace trace db)) as [r after].
  cbn [fst snd] in *.
  inversion Hrun as [| | | | | | |rb any c usr Hrb Hok Hany Hc Husr]; subst;
    try discriminate.
  cbn [credited success_data wd_totalCredited]. intros [= <-].
  apply Hall. by destruct (candidate_pending _ any c Hc) as [? _].
Qed.

Lemma never_under_minimum_witness :
  let e := {| env_fails := no_faults; env_now := 1000; env_qr := qr_ok;
              env_rt := scenario_runtime |} in
  let trace := [(e, IssueDeposit 20 7); (e, IssueDeposit 60 7);
                (e, PaymentConfirmation paid_35)] in
  (forall t, t ∈ transactions (run_trace trace db_ready) -> 35 <= amount t) /\
  (forall fails now req_body a,
     credited (pixWebhook fails now req_body (run_trace trace db_ready)).1
       = Some a ->
     35 <= a).
Proof.
  intros e trace. apply (never_under_minimum trace db_ready).
  - solve_wf_db.
  - intros t Ht. by apply elem_of_nil in Ht.
Defined.

(** Issuing on a store without PENDING PIX deposits and then
    confirming: the two stores and the answer of the webhook. *)
Lemma issue_then_confirm_stores now1 now2 qr a u db cred code req_body rb :
  wf_db db ->
  (forall t, t ∈ transactions db -> ~ pending_pix t) ->
  35 <= a ->
  head (List.filter isActive (pixCredentials db)) = Some cred ->
  qr a "Depósito via PIX" (external_id_at now1 u) cred = Some code ->
  is_Some (User.findById u db) ->
  destructure req_body "requestBody" = Some rb ->
  paid rb ->
  let created :=
    Transaction.create u DEPOSIT a PENDING PIX (external_id_at now1 u)
      now1 db in
  generatePixQrCode no_faults now1 qr a u db
    = (QrCreated {| qd_transaction_id := nextId db;
                    qd_external_id := external_id_at now1 u;
                    qd_qr_code := code; qd_amount := a |}, created.2) /\
  wf_db created.2 /\
  pixWebhook no_faults now2 req_body created.2
    = (WebhookProcessed (success_data now2 created.2 rb created.1 created.1),
       after_cancel now2 created.2 rb created.1 created.1) /\
  siblings now2 created.2 rb created.1 created.1 = [] /\
  transactions (after_cancel now2 created.2 rb created.1 created.1)
    = transactions db ++ [resolve rb now2 created.1 created.1].
Proof.
  intros Hwf Hnone Ha Hcred Hqr [usr Husr] Hrb Hpaid created.
  set (doc := created.1). set (db1 := created.2).
  assert (generatePixQrCode no_faults now1 qr a u db
          = (QrCreated {| qd_transaction_id := nextId db;
                          qd_external_id := external_id_at now1 u;
                          qd_qr_code := code; qd_amount := a |}, db1))
    as Hissue.
  { unfold_issue. unfold no_faults.
    replace ((a =? 0) || (a <=? 0)) with false.
    2:{ symmetry. apply orb_false_iff.
        split; [apply Z.eqb_neq|apply Z.leb_gt]; lia. }
    replace (a <? 35) with false by (symmetry; apply Z.ltb_ge; lia).
    rewrite Hcred. unfold Transaction.create.
    fold (external_id_at now1 u). by rewrite Hqr. }
  assert (wf_db db1) as Hwf1.
  { by destruct (keeps_settled_create db u DEPOSIT a PENDING PIX
                   (external_id_at now1 u) now1 Hwf). }
  assert (doc ∈ transactions db1) as Hdoc.
  { apply elem_of_app. right. by apply elem_of_cons; left. }
  assert (forall t, t ∈ transactions db1 -> pending_pix t -> t = doc)
    as Honly.
  { intros t [Ht|Ht]%elem_of_app Hp; [by destruct (Hnone t Ht)|].
    by apply elem_of_cons in Ht as [->|Ht%elem_of_nil]. }
  destruct (findOne_is_Some pending_pix_deposit [(createdAt, Descending)]
              db1 doc Hdoc) as [any Hany]; [by apply matches_pending|].
  assert (any = doc) as ->.
  { apply findOne_Some in Hany as (Hin & Hq & _).
    apply Honly; [done|by apply matches_pending]. }
  destruct (pixWebhook_no_faults now2 req_body rb db1 doc Hrb Hpaid Hany)
    as (c & Hc & Hrun).
  assert (c = doc) as ->.
  { pose proof (findOne_Some _ _ _ c Hc) as (Hin & Hq & _).
    apply matches_pending_of in Hq as [_ Hq].
    apply Honly; [done|by apply matches_pending]. }
  change (User.findById (userId doc) db1) with (User.findById u db) in Hrun.
  rewrite Husr in Hrun.
  split; [done|]. split; [done|]. split; [done|]. split.
  - rewrite (siblings_before now2 db1 rb doc doc Hc). apply filter_none.
    intros t Ht. apply not_true_is_false.
    intros [Hne [_ Hp%matches_pending]%matches_pending_of]
             %matches_other_pending_of.
    by rewrite (Honly t Ht Hp) in Hne.
  - rewrite (after_cancel_transactions now2 db1 rb doc doc Hc).
    change (transactions db1) with (transactions db ++ [doc]).
    rewrite map_app. f_equal.
    rewrite <- (map_id (transactions db)) at 2.
    apply map_ext_in. intros t Ht%list_elem_of_In. unfold resolve.
    rewrite bool_decide_eq_false_2.
    + destruct (matches _ t) eqn:Hm; [|done].
      apply matches_pending_of in Hm as [_ Hm%matches_pending].
      by destruct (Hnone t Ht).
    + destruct Hwf as [_ Hlt]. apply Hlt in Ht. simpl. lia.
Qed.

(** X17.  The ordinary flow.  On a store without any PENDING PIX
    deposit, a user whose record exists is issued a deposit and a success
    payload arrives: the confirmation goes through for that user, credits
    exactly the issued amount, cancels nothing, leaves the issued
    transaction COMPLETED and every earlier transaction as it was. *)
Theorem issue_then_confirm now1 now2 qr a u db cred code req_body rb :
  wf_db db ->
  (forall t, t ∈ transactions db -> ~ pending_pix t) ->
  35 <= a ->
  head (List.filter isActive (pixCredentials db)) = Some cred ->
  qr a "Depósito via PIX" (external_id_at now1 u) cred = Some code ->
  is_Some (User.findById u db) ->
  destructure req_body "requestBody" = Some rb ->
  paid rb ->
  (generatePixQrCode no_faults now1 qr a u db).1
    = QrCreated {| qd_transaction_id := nextId db;
                   qd_external_id := external_id_at now1 u;
                   qd_qr_code := code; qd_amount := a |} /\
  exists d,
    (pixWebhook no_faults now2 req_body
       (generatePixQrCode no_faults now1 qr a u db).2).1
      = WebhookProcessed d /\
    wd_userId d = u /\ wd_totalCredited d = a /\
    wd_cancelledTransactions d = 0%nat /\
    status_of (nextId db)
      (pixWebhook no_faults now2 req_body
         (generatePixQrCode no_faults now1 qr a u db).2).2
      = Some COMPLETED /\
    forall t, t ∈ transactions db ->
      Transaction.findById (_id t)
        (pixWebhook no_faults now2 req_body
           (generatePixQrCode no_faults now1 qr a u db).2).2
      = Some t.
Proof.
  intros Hwf Hnone Ha Hcred Hqr Husr Hrb Hpaid.
  destruct (issue_then_confirm_stores now1 now2 qr a u db cred code
              req_body rb Hwf Hnone Ha Hcred Hqr Husr Hrb Hpaid)
    as (Hissue & Hwf1 & Hrun & Hsib & Htx).
  rewrite Hissue. cbn [fst snd]. split; [done|].
  rewrite Hrun. cbn [fst snd]. eexists. split; [reflexivity|].
  cbn [success_data wd_userId wd_totalCredited wd_cancelledTransactions].
  split; [done|]. split; [done|]. split; [by rewrite Hsib|].
  set (created := Transaction.create u DEPOSIT a PENDING PIX
                    (external_id_at now1 u) now1 db) in *.
  set (after := after_cancel now2 created.2 rb created.1 created.1) in *.
  assert (NoDup (map _id (transactions after))) as Hnd.
  { rewrite Htx, map_app. cbn [map]. rewrite resolve_id.
    destruct Hwf1 as [Hnd1 _]. cbn [created Transaction.create snd fst
                                    transactions] in Hnd1.
    by rewrite map_app in Hnd1. }
  split.
  - unfold status_of.
    change (nextId db) with (_id created.1).
    rewrite <- (resolve_id rb now2 created.1 created.1).
    rewrite (findById_elem after _ Hnd).
    + simpl. unfold resolve. by rewrite bool_decide_eq_true_2.
    + rewrite Htx. apply elem_of_app. right. by apply elem_of_cons; left.
  - intros t Ht. apply (findById_elem after t Hnd).
    rewrite Htx. apply elem_of_app. by left.
Qed.

Lemma issue_then_confirm_witness :
  exists d,
    (pixWebhook no_faults 2000 paid_35
       (generatePixQrCode no_faults 1000 qr_ok 60 7 db_ready).2).1
      = WebhookProcessed d /\
    wd_userId d = 7%nat /\ wd_totalCredited d = 60 /\
    wd_cancelledTransactions d = 0%nat.
Proof.
  destruct (issue_then_confirm 1000 2000 qr_ok 60 7 db_ready
              (mkCredential "live" "s1" true)
              "00020126580014br.gov.bcb.pix" paid_35
              (JObj [("status", JStr "PAID"); ("amount", JNum 35)]))
    as [_ (d & Hd & Hu & Ha & Hc & _)].
  - solve_wf_db.
  - intros t Ht. by apply elem_of_nil in Ht.
  - lia.
  - reflexivity.
  - reflexivity.
  - eexists. vm_compute. reflexivity.
  - reflexivity.
  - reflexivity.
  - by exists d.
Defined.

(** ** A user record that is gone *)

(** X18.  When the newest PENDING PIX deposit belongs to a user whose
    record does not exist, a fault-free confirmation answers UserNotFound
    and changes nothing; hence no sequence of such confirmations makes
    any progress, whatever other users have pending. *)
Theorem missing_user_blocks_confirmations db u :
  identified_user db = Some u ->
  User.findById u db = None ->
  (forall now req_body rb,
     destructure req_body "requestBody" = Some rb -> paid rb ->
     pixWebhook no_faults now req_body db = (UserNotFound, db)) /\
  (forall trace,
     Forall (fun er : Env * Request =>
               env_fails er.1 = no_faults /\
               exists req_body rb,
                 er.2 = PaymentConfirmation req_body /\
                 destructure req_body "requestBody" = Some rb /\ paid rb)
            trace ->
     run_trace trace db = db).
Proof.
  intros Hu Hgone.
  assert (forall now req_body rb,
     destructure req_body "requestBody" = Some rb -> paid rb ->
     pixWebhook no_faults now req_body db = (UserNotFound, db)) as Hone.
  { intros now req_body rb Hrb Hpaid. unfold identified_user in Hu.
    destruct (Transaction.findOne pending_pix_deposit _ db) as [any|] eqn:Hany;
      [|done].
    injection Hu as Hu.
    destruct (pixWebhook_no_faults now req_body rb db any Hrb Hpaid Hany)
      as (c & _ & Hrun).
    by rewrite Hu, Hgone in Hrun. }
  split; [done|].
  induction trace as [|[e r] rest IH]; intros Hall; [done|].
  apply Forall_cons in Hall as [(Hf & body & rb & Hr & Hrb & Hp) Hrest].
  simpl in *. subst r. simpl. rewrite Hf, (Hone _ body rb Hrb Hp).
  by apply IH.
Qed.

Lemma missing_user_blocks_confirmations_witness :
  pixWebhook no_faults 1000 paid_35 db_orphan = (UserNotFound, db_orphan).
Proof.
  refine (proj1 (missing_user_blocks_confirmations db_orphan 9 _ _)
            1000 paid_35
            (JObj [("status", JStr "PAID"); ("amount", JNum 35)]) _ _);
    reflexivity.
Defined.

(** ** The audit trail *)

Lemma obj_get_set_eq k v o : obj_get k (obj_set k v o) = v.
Proof.
  induction o as [|[k0 v0] o IH]; simpl.
  - by rewrite String.eqb_refl.
  - destruct (String.eqb_spec k k0) as [->|Hne]; simpl.
    + by rewrite String.eqb_refl.
    + by rewrite (proj2 (String.eqb_neq k k0)).
Qed.

(** X19.  What a reconciliation that goes through writes down.  The
    credited transaction gets a fresh metadata object (whatever it held
    before is gone) with the flag, the credited amount and the payload;
    each cancelled sibling keeps its metadata and gains who cancelled it,
    when and why. *)
Theorem reconciliation_audit_trail now req_body rb db u :
  wf_db db ->
  destructure req_body "requestBody" = Some rb ->
  paid rb ->
  identified_user db = Some u ->
  is_Some (User.findById u db) ->
  exists c c',
    c ∈ pending_of u db /\
    Transaction.findById (_id c) (pixWebhook no_faults now req_body db).2
      = Some c' /\
    metadata c' = completed_metadata rb (amount c) u now /\
    obj_get "specialLogicApplied" (metadata c') = JBool true /\
    obj_get "originalAmount" (metadata c') = JNum (amount c) /\
    obj_get "webhookData" (metadata c') = rb /\
    updatedAt c' = now /\
    forall t, t ∈ pending_of u db -> t <> c ->
      exists t',
        Transaction.findById (_id t) (pixWebhook no_faults now req_body db).2
          = Some t' /\
        obj_get "cancelledBy" (metadata t') = JStr "SPECIAL_LOGIC" /\
        obj_get "cancelledAt" (metadata t') = JDate now /\
        obj_get "reason" (metadata t')
          = JStr "Cancelado pela lógica especial - Valor maior já foi creditado"
        /\
        updatedAt t' = now /\
        forall k, k <> "cancelledBy" -> k <> "cancelledAt" -> k <> "reason" ->
                  obj_get k (metadata t') = obj_get k (metadata t).
Proof.
  intros Hwf Hrb Hpaid Hu [usr Husr].
  unfold identified_user in Hu.
  destruct (Transaction.findOne pending_pix_deposit _ db) as [any|] eqn:Hany;
    [|done].
  injection Hu as Hu.
  destruct (pixWebhook_no_faults now req_body rb db any Hrb Hpaid Hany)
    as (c & Hc & Hrun).
  rewrite Hu, Husr in Hrun. rewrite Hrun. cbn [snd].
  destruct (candidate_pending db any c Hc) as (Hcin & Hcu & _).
  rewrite Hu in Hcu.
  pose proof (findOne_Some _ _ _ c Hc) as (_ & Hcq & _). rewrite Hu in Hcq.
  assert (forall i,
            Transaction.findById i (after_cancel now db rb any c)
            = resolve rb now c <$> Transaction.findById i db) as Hfind.
  { intros i. apply findById_map; [|apply resolve_id].
    by apply after_cancel_transactions. }
  exists c, (resolve rb now c c).
  split; [by apply elem_of_List_filter|].
  split; [by rewrite Hfind, (findById_elem db c); [|apply Hwf|]|].
  unfold resolve at 1 2 3 4 5. rewrite bool_decide_eq_true_2 by done.
  cbn [Transaction.stamp mark_completed metadata updatedAt]. rewrite Hcu.
  do 5 (split; [done|]).
  intros t [Ht Hq]%elem_of_List_filter Hne.
  exists (resolve rb now c t).
  split; [by rewrite Hfind, (findById_elem db t); [|apply Hwf|]|].
  unfold resolve. rewrite bool_decide_eq_false_2.
  2:{ intros Heq. apply Hne. by eapply same_id_same_doc. }
  rewrite Hcu, Hq.
  cbn [Transaction.stamp Transaction.apply_patch cancel_patch metadata
       updatedAt p_metadata foldl fst snd].
  split.
  { rewrite (obj_get_set_ne "cancelledBy" "reason") by done.
    rewrite (obj_get_set_ne "cancelledBy" "cancelledAt") by done.
    apply obj_get_set_eq. }
  split.
  { rewrite (obj_get_set_ne "cancelledAt" "reason") by done.
    apply obj_get_set_eq. }
  split; [apply obj_get_set_eq|]. split; [done|].
  intros k Hk1 Hk2 Hk3. by rewrite !obj_get_set_ne.
Qed.

Lemma reconciliation_audit_trail_witness :
  exists c c',
    c ∈ pending_of 7 db_500_35 /\
    Transaction.findById (_id c)
      (pixWebhook no_faults 1000 paid_35 db_500_35).2 = Some c' /\
    obj_get "originalAmount" (metadata c') = JNum (amount c) /\
    forall t, t ∈ pending_of 7 db_500_35 -> t <> c ->
      exists t',
        Transaction.findById (_id t)
          (pixWebhook no_faults 1000 paid_35 db_500_35).2 = Some t' /\
        obj_get "cancelledBy" (metadata t') = JStr "SPECIAL_LOGIC".
Proof.
  destruct (reconciliation_audit_trail 1000 paid_35
              (JObj [("status", JStr "PAID"); ("amount", JNum 35)])
              db_500_35 7)
    as (c & c' & Hc & Hc' & _ & _ & Horig & _ & _ & Hrest).
  - solve_wf_db.
  - reflexivity.
  - reflexivity.
  - reflexivity.
  - eexists. vm_compute. reflexivity.
  - exists c, c'. split; [exact Hc|]. split; [exact Hc'|].
    split; [exact Horig|].
    intros t Ht Hne. destruct (Hrest t Ht Hne) as (t' & Ht' & Hby & _).
    exists t'. split; [exact Ht'|exact Hby].
Defined.

(** ** Issued, confirmed, looked up *)

(** X20.  After the ordinary flow (a deposit issued on a store without
    PENDING PIX deposits, then confirmed), the status handler, asked for
    the external id that was handed out, answers with the issued
    transaction as COMPLETED, flagged, with its amount, provided no
    earlier transaction carries the same external id. *)
Theorem issued_confirmed_then_found now1 now2 qr a u db cred code req_body
    rb :
  wf_db db ->
  (forall t, t ∈ transactions db -> ~ pending_pix t) ->
  35 <= a ->
  head (List.filter isActive (pixCredentials db)) = Some cred ->
  qr a "Depósito via PIX" (external_id_at now1 u) cred = Some code ->
  is_Some (User.findById u db) ->
  destructure req_body "requestBody" = Some rb ->
  paid rb ->
  (forall t, t ∈ transactions db ->
             externalReference t <> external_id_at now1 u) ->
  exists t,
    checkPixStatus no_faults (external_id_at now1 u)
      (pixWebhook no_faults now2 req_body
         (generatePixQrCode no_faults now1 qr a u db).2).2
    = (StatusFound t,
       (pixWebhook no_faults now2 req_body
          (generatePixQrCode no_faults now1 qr a u db).2).2) /\
    _id t = nextId db /\ userId t = u /\ status t = COMPLETED /\
    amount t = a /\ flagged t /\ updatedAt t = now2.
Proof.
  intros Hwf Hnone Ha Hcred Hqr Husr Hrb Hpaid Hfresh.
  destruct (issue_then_confirm_stores now1 now2 qr a u db cred code
              req_body rb Hwf Hnone Ha Hcred Hqr Husr Hrb Hpaid)
    as (Hissue & _ & Hrun & _ & Htx).
  rewrite Hissue. cbn [snd]. rewrite Hrun. cbn [snd].
  eexists. unfold_status. unfold no_faults.
  unfold Transaction.findOne, Transaction.find.
  rewrite sort_docs_unsorted, Htx, List.filter_app, filter_none.
  2:{ intros t Ht. apply not_true_is_false.
      intros Hq%matches_by_externalReference. by destruct (Hfresh t Ht). }
  cbn [app List.filter].
  replace (matches (by_externalReference _) _) with true.
  2:{ symmetry. apply matches_by_externalReference. unfold resolve.
      by rewrite bool_decide_eq_true_2. }
  cbn [head]. split; [reflexivity|].
  unfold resolve. rewrite bool_decide_eq_true_2 by done.
  by repeat split.
Qed.

Lemma issued_confirmed_then_found_witness :
  exists t,
    checkPixStatus no_faults (external_id_at 1000 7)
      (pixWebhook no_faults 2000 paid_35
         (generatePixQrCode no_faults 1000 qr_ok 60 7 db_ready).2).2
    = (StatusFound t,
       (pixWebhook no_faults 2000 paid_35
          (generatePixQrCode no_faults 1000 qr_ok 60 7 db_ready).2).2) /\
    _id t = 0%nat /\ userId t = 7%nat /\ status t = COMPLETED /\
    amount t = 60 /\ flagged t /\ updatedAt t = 2000.
Proof.
  apply (issued_confirmed_then_found 1000 2000 qr_ok 60 7 db_ready
           (mkCredential "live" "s1" true)
           "00020126580014br.gov.bcb.pix" paid_35
           (JObj [("status", JStr "PAID"); ("amount", JNum 35)])).
  - solve_wf_db.
  - intros t Ht. by apply elem_of_nil in Ht.
  - lia.
  - reflexivity.
  - reflexivity.
  - eexists. vm_compute. reflexivity.
  - reflexivity.
  - reflexivity.
  - intros t Ht. by apply elem_of_nil in Ht.
Defined.
